(** * Drift monitoring: the [Monitor] class of 04-Production/01-Monitoring.py

    A shallow embedding of the [Monitor] class (source lines 434-508) and
    theorems about it.

    - Python floats are IEEE 754 binary64 values: Rocq's primitive floats.
    - A pandas DataFrame is an ordered list of named columns; a cell is
      [None] when it is null (Python's None or NaN) and [Some v] otherwise.
    - [print] appends a line to the standard output, which is threaded
      through every computation together with the exception that may end it.
    - scipy's two tests and pandas' [describe] are library code: the
      embedding takes them as parameters. *)

From Stdlib Require Import Floats ZArith List String Bool Arith Lia Permutation.
From Stdlib Require Import Sorted.
Import ListNotations.

(** Decimal literals denote the nearest binary64 value, as in Python. *)
Set Warnings "-inexact-float".

Local Open Scope string_scope.
Local Open Scope list_scope.

(** ** Exceptions and computations *)

Inductive exn : Type :=
| AssertionError (msg : string)
| ValueError (msg : string)
| KeyError (key : string)
| ZeroDivisionError (msg : string).

Inductive result (A : Type) : Type :=
| Ok (a : A)
| Raise (e : exn).

Arguments Ok {A} a.
Arguments Raise {A} e.

(** Lines written by [print], oldest first. *)
Definition stdout : Type := list string.

(** A Python computation: it starts with the output written so far and ends
    either with a value or with an exception, and with the output extended
    by what it printed before ending. *)
Definition Py (A : Type) : Type := stdout -> result A * stdout.

Definition ret {A : Type} (a : A) : Py A := fun out => (Ok a, out).

Definition raise {A : Type} (e : exn) : Py A := fun out => (Raise e, out).

Definition bind {A B : Type} (c : Py A) (k : A -> Py B) : Py B :=
  fun out =>
    match c out with
    | (Ok a, out') => k a out'
    | (Raise e, out') => (Raise e, out')
    end.

Definition lift {A : Type} (r : result A) : Py A := fun out => (r, out).

Definition print (line : string) : Py unit := fun out => (Ok tt, out ++ [line]).

Declare Scope py_scope.
Delimit Scope py_scope with py.
Notation "x <- c ;; k" := (bind c (fun x => k))
  (at level 61, c at next level, right associativity) : py_scope.
Notation "c ;;; k" := (bind c (fun _ => k))
  (at level 61, right associativity) : py_scope.

(** [for x in l: body x] *)
Fixpoint for_each {A : Type} (l : list A) (body : A -> Py unit) : Py unit :=
  match l with
  | [] => ret tt
  | x :: l' => bind (body x) (fun _ => for_each l' body)
  end.

(** What the caller of a method receives.  A method without a [return]
    statement hands back [None]. *)
Inductive pyvalue : Type :=
| PyNone
| PyList (items : list string).

(** ** Floats *)

(** [float(n)] for a length [n]; exact below 2^53. *)
Definition float_of_len (n : nat) : float :=
  PrimFloat.of_uint63 (Uint63.of_Z (Z.of_nat n)).

(** [alpha / n] with [alpha] a float and [n] an int: Python raises
    ZeroDivisionError when [n] is 0 and divides in binary64 otherwise. *)
Definition truediv (alpha : float) (n : nat) : result float :=
  match n with
  | O => Raise (ZeroDivisionError "float division by zero")
  | S _ => Ok (alpha / float_of_len n)%float
  end.

(** ** Frames *)

Section Frames.

(** Non-null cell contents. *)
Variable value : Type.

Definition series : Type := list (option value).

Definition DataFrame : Type := list (string * series).

Definition columns (df : DataFrame) : list string := map fst df.

(** [df[key]]: the column of that name, KeyError when there is none. *)
Fixpoint getitem (df : DataFrame) (key : string) : result series :=
  match df with
  | [] => Raise (KeyError key)
  | (name, col) :: df' =>
      if String.eqb name key then Ok col else getitem df' key
  end.

(** [i1 == i2] on two column indexes: element-wise, and pandas refuses to
    compare indexes of different lengths. *)
Definition index_eq (i1 i2 : list string) : result (list bool) :=
  if Nat.eqb (List.length i1) (List.length i2)
  then Ok (map (fun ab => String.eqb (fst ab) (snd ab)) (combine i1 i2))
  else Raise (ValueError "Lengths must match to compare").

(** [.all()] *)
Definition all (bs : list bool) : bool := forallb (fun b => b) bs.

(** [s.dropna()]: the non-null cells, in order. *)
Fixpoint dropna (s : series) : list value :=
  match s with
  | [] => []
  | Some v :: s' => v :: dropna s'
  | None :: s' => dropna s'
  end.

Section Counts.

(** [==] and [<=] on cell contents; hashing and sorting use them. *)
Variable value_eq_dec : forall a b : value, {a = b} + {a <> b}.
Variable value_leb : value -> value -> bool.

Definition count (k : value) (l : list value) : nat :=
  count_occ value_eq_dec l k.

Definition mem (k : value) (l : list value) : bool :=
  if in_dec value_eq_dec k l then true else false.

(** Distinct values in order of first appearance. *)
Fixpoint unique_from (seen l : list value) : list value :=
  match l with
  | [] => []
  | v :: l' =>
      if mem v seen then unique_from seen l'
      else v :: unique_from (v :: seen) l'
  end.

Definition unique (l : list value) : list value := unique_from [] l.

(** Stable insertion sort along a comparison [le]. *)
Fixpoint insert_by {A : Type} (le : A -> A -> bool) (x : A) (l : list A)
  : list A :=
  match l with
  | [] => [x]
  | y :: l' => if le x y then x :: l else y :: insert_by le x l'
  end.

Fixpoint sort_by {A : Type} (le : A -> A -> bool) (l : list A) : list A :=
  match l with
  | [] => []
  | x :: l' => insert_by le x (sort_by le l')
  end.

(** A one-column frame of counts: index label and count, in row order. *)
Definition counts : Type := list (value * nat).

(** [s.value_counts()]: nulls are excluded ([dropna=True] is the
    default), one row per distinct value, most frequent first. *)
Definition value_counts (s : series) : counts :=
  let vs := dropna s in
  sort_by (fun a b => Nat.leb (snd b) (snd a))
          (map (fun k => (k, count k vs)) (unique vs)).

(** [.sort_index()] *)
Definition sort_index (c : counts) : counts :=
  sort_by (fun a b => value_leb (fst a) (fst b)) c.

(** [c.loc[k]] when the label is present. *)
Fixpoint lookup (k : value) (c : counts) : option nat :=
  match c with
  | [] => None
  | (k', n) :: c' => if value_eq_dec k k' then Some n else lookup k c'
  end.

(** [c1.join(c2, how="outer")]: the index is the sorted union of the two
    indexes; a label missing on one side has a null there. *)
Definition join_outer (c1 c2 : counts)
  : list (value * (option nat * option nat)) :=
  map (fun k => (k, (lookup k c1, lookup k c2)))
      (sort_by value_leb (unique (map fst c1 ++ map fst c2))).

(** [.fillna(0)] *)
Definition fillna0 (j : list (value * (option nat * option nat)))
  : list (value * (nat * nat)) :=
  map (fun r => (fst r, (match fst (snd r) with Some n => n | None => 0 end,
                         match snd (snd r) with Some n => n | None => 0 end)))
      j.

(** [pd.DataFrame(s.value_counts()).sort_index()] *)
Definition sorted_counts (s : series) : counts :=
  sort_index (value_counts s).

(** [pdf_counts] of [handle_categorical] for one feature. *)
Definition pdf_counts (s1 s2 : series) : list (value * (nat * nat)) :=
  let pdf_count1 := sorted_counts s1 in
  let pdf_count2 := sorted_counts s2 in
  fillna0 (join_outer pdf_count1 pdf_count2).

(** The index of [pdf_counts]: the categories, in the order of the columns
    of [obs]. *)
Definition categories (s1 s2 : series) : list value :=
  map fst (pdf_counts s1 s2).

(** [obs = np.array([pdf_counts["pdf1"], pdf_counts["pdf2"]])] *)
Definition obs (s1 s2 : series) : list (list nat) :=
  let pc := pdf_counts s1 s2 in
  [map (fun r => fst (snd r)) pc; map (fun r => snd (snd r)) pc].

End Counts.

End Frames.

Arguments getitem {value} df key.
Arguments columns {value} df.
Arguments dropna {value} s.
Arguments index_eq i1 i2 : clear implicits.
Arguments count {value} value_eq_dec k l.
Arguments unique {value} value_eq_dec l.
Arguments value_counts {value} value_eq_dec s.
Arguments sort_index {value} value_leb c.
Arguments lookup {value} value_eq_dec k c.
Arguments join_outer {value} value_eq_dec value_leb c1 c2.
Arguments fillna0 {value} j.
Arguments sorted_counts {value} value_eq_dec value_leb s.
Arguments pdf_counts {value} value_eq_dec value_leb s1 s2.
Arguments categories {value} value_eq_dec value_leb s1 s2.
Arguments obs {value} value_eq_dec value_leb s1 s2.

(** ** Verdicts *)

(** The verdict on a feature whose test is [test] and whose p-value is
    judged by [verdict]; a feature whose test raises has no drift verdict. *)
Definition is_drift (test : string -> result float) (verdict : float -> bool)
  (f : string) : bool :=
match test f with
| Ok p => verdict p
| Raise _ => false
end.

(** ** Summary tables *)

(** The rows of [df.describe()]. *)
Inductive statistic : Type :=
| Count | Mean | Std | Min | Q25 | Q50 | Q75 | Max.

(** One column of a summary table: a float per statistic. *)
Definition summary_column : Type := statistic -> float.

(** A summary table: its columns in order. *)
Definition summary : Type := list (string * summary_column).

(** [table[names]]: the named columns in the order asked, KeyError at the
    first name the table does not have. *)
Fixpoint select (table : summary) (names : list string) : result summary :=
match names with
| [] => Ok []
| name :: names' =>
    match find (fun c => String.eqb (fst c) name) table with
    | None => Raise (KeyError name)
    | Some c =>
        match select table names' with
        | Ok cs => Ok ((name, snd c) :: cs)
        | Raise e => Raise e
        end
    end
end.

(** The constant added to the baseline statistic. *)
Definition epsilon : float := 1e-100%float.

(** One cell of [100 * abs((summary1 - summary2) / (summary1 + 1e-100))]. *)
Definition percent_change_cell (a b : float) : float :=
(100 * PrimFloat.abs ((a - b) / (a + epsilon)))%float.

(** The expression on two tables that carry the same columns: pandas works
    cell by cell. *)
Definition percent_change (summary1 summary2 : summary) : summary :=
map (fun cs => (fst (fst cs),
                fun s => percent_change_cell (snd (fst cs) s) (snd (snd cs) s)))
    (combine summary1 summary2).

(** The column of that name, and one of its cells. *)
Definition column (table : summary) (name : string) : option summary_column :=
option_map snd (find (fun c => String.eqb (fst c) name) table).

Definition cell (table : summary) (name : string) (s : statistic)
  : option float :=
option_map (fun c => c s) (column table name).

(** The percent change as the specification words it,
    [100 * |a - b| / (|a| + epsilon)], with the operations in the order of
    the source. *)
Definition claimed_percent_change (a b : float) : float :=
(100 * (PrimFloat.abs (a - b) / (PrimFloat.abs a + epsilon)))%float.

(** ** Loops over a feature list

    A loop over a feature list tests its features in order and stops at the
    first test that raises. *)

(** The features the loop gets through: those before the first test that
    raises. *)
Fixpoint tested (test : string -> result float) (l : list string)
  : list string :=
match l with
| [] => []
| f :: l' =>
    match test f with
    | Ok _ => f :: tested test l'
    | Raise _ => []
    end
end.

(** How the loop ends: with the exception of the first test that raises, if
    any. *)
Fixpoint outcome (test : string -> result float) (l : list string)
  : result unit :=
match l with
| [] => Ok tt
| f :: l' =>
    match test f with
    | Ok _ => outcome test l'
    | Raise e => Raise e
    end
end.

(** ** Null counts *)

Section Nulls.

Variable value : Type.

(** [s.isnull()] on one cell. *)
Definition isnull (c : option value) : bool :=
match c with
| None => true
| Some _ => false
end.

(** [s.isnull().sum()]: the number of null cells of a column. *)
Definition isnull_sum (s : series value) : nat :=
List.length (filter isnull s).

(** [len(df)]: the number of rows, which every column has. *)
Definition nrows (df : DataFrame value) : nat :=
match df with
| [] => 0
| c :: _ => List.length (snd c)
end.

(** [100 * df.isnull().sum() / len(df)]: per column, the integer
    [100 * nulls] divided by the number of rows; the division is numpy's
    true division of float64 values, which does not raise. *)
Definition null_percent (df : DataFrame value) : list (string * float) :=
map (fun c => (fst c,
               (float_of_len (100 * isnull_sum (snd c))
                / float_of_len (nrows df))%float))
    df.

(** [s.map(lambda x: None if x == 0 else x)], with [is_zero] for [x == 0]:
    the function is applied to every cell, null cells included. *)
Definition map_none_if_zero (is_zero : value -> bool) (s : series value)
  : series value :=
map (fun c => match c with
              | Some x => if is_zero x then None else Some x
              | None => None
              end) s.

End Nulls.

Arguments isnull {value} c.
Arguments isnull_sum {value} s.
Arguments nrows {value} df.
Arguments null_percent {value} df.
Arguments map_none_if_zero {value} is_zero s.

(** ** The class *)

Module Monitor.

Section Class.

Variable value : Type.
Variable value_eq_dec : forall a b : value, {a = b} + {a <> b}.
Variable value_leb : value -> value -> bool.

(** [scipy.stats.ks_2samp(x, y, mode="asymp")]: statistic and p-value. *)
Variable ks_2samp : series value -> series value -> result (float * float).

(** [scipy.stats.chi2_contingency(obs)]: the p-value, second of the four
    values it returns and the only one the class reads. *)
Variable chi2_contingency : list (list nat) -> result float.

(** [df.describe()] *)
Variable describe : DataFrame value -> result summary.

Record t : Type := {
  pdf1 : DataFrame value;
  pdf2 : DataFrame value;
  alpha : float;
  categorical_columns : list string;
  continuous_columns : list string
}.

Definition default_alpha : float := 0.05%float.

(** [Monitor(pdf1, pdf2, cat_cols, num_cols, alpha)] *)
Definition init (pdf1 pdf2 : DataFrame value) (cat_cols num_cols : list string)
  (alpha : float) : result t :=
match index_eq (columns pdf1) (columns pdf2) with
| Raise e => Raise e
| Ok same =>
    if all same
    then Ok {| pdf1 := pdf1; pdf2 := pdf2; alpha := alpha;
               categorical_columns := cat_cols;
               continuous_columns := num_cols |}
    else Raise (AssertionError "Columns do not match")
end.

Definition drift_message (feature : string) : string :=
"Drift found in " ++ feature ++ "!".

Definition on_drift (feature : string) : Py unit :=
print (drift_message feature).

(** The body of [for num in self.continuous_columns]. *)
Definition numeric_step (self : t) (corrected_alpha : float) (num : string)
  : Py unit :=
(x <- lift (getitem (pdf1 self) num) ;;
 y <- lift (getitem (pdf2 self) num) ;;
 ks <- lift (ks_2samp x y) ;;
 let ks_pval := snd ks in
 if (ks_pval <=? corrected_alpha)%float then on_drift num else ret tt)%py.

Definition handle_numeric (self : t) : Py unit :=
(corrected_alpha <-
   lift (truediv (alpha self) (List.length (continuous_columns self))) ;;
 for_each (continuous_columns self) (numeric_step self corrected_alpha))%py.

(** The body of [for feature in self.categorical_columns]. *)
Definition categorical_step (self : t) (corrected_alpha : float)
  (feature : string) : Py unit :=
(s1 <- lift (getitem (pdf1 self) feature) ;;
 s2 <- lift (getitem (pdf2 self) feature) ;;
 p <- lift (chi2_contingency (obs value_eq_dec value_leb s1 s2)) ;;
 if (p <? corrected_alpha)%float then on_drift feature else ret tt)%py.

Definition handle_categorical (self : t) : Py unit :=
(corrected_alpha <-
   lift (truediv (alpha self) (List.length (categorical_columns self))) ;;
 for_each (categorical_columns self) (categorical_step self corrected_alpha))%py.

Definition run (self : t) : Py pyvalue :=
(handle_numeric self ;;;
 handle_categorical self ;;;
 ret PyNone)%py.

(** The data of the table [generate_percent_change] styles. *)
Definition generate_percent_change (self : t) : result summary :=
match describe (pdf1 self) with
| Raise e => Raise e
| Ok d1 =>
    match select d1 (continuous_columns self) with
    | Raise e => Raise e
    | Ok summary1_pdf =>
        match describe (pdf2 self) with
        | Raise e => Raise e
        | Ok d2 =>
            match select d2 (continuous_columns self) with
            | Raise e => Raise e
            | Ok summary2_pdf => Ok (percent_change summary1_pdf summary2_pdf)
            end
        end
    end
end.

(** *** Vocabulary of the properties

    The definitions below are not methods of the class: they name what a
    loop body computes for a feature, so that the properties can speak of
    it. *)

(** The p-value a numeric feature gets, or the exception that ends its
    test: a missing column of either window, or the test itself. *)
Definition numeric_test (self : t) (num : string) : result float :=
match getitem (pdf1 self) num with
| Raise e => Raise e
| Ok x =>
    match getitem (pdf2 self) num with
    | Raise e => Raise e
    | Ok y =>
        match ks_2samp x y with
        | Raise e => Raise e
        | Ok ks => Ok (snd ks)
        end
    end
end.

(** The same for a categorical feature. *)
Definition categorical_test (self : t) (feature : string) : result float :=
match getitem (pdf1 self) feature with
| Raise e => Raise e
| Ok s1 =>
    match getitem (pdf2 self) feature with
    | Raise e => Raise e
    | Ok s2 => chi2_contingency (obs value_eq_dec value_leb s1 s2)
    end
end.

(** The verdict of a run on a feature of each family. *)
Definition numeric_verdict (self : t) : string -> bool :=
is_drift (numeric_test self)
  (fun p => (p <=? alpha self
                   / float_of_len (List.length (continuous_columns self)))%float).

Definition categorical_verdict (self : t) : string -> bool :=
is_drift (categorical_test self)
  (fun p => (p <? alpha self
                  / float_of_len (List.length (categorical_columns self)))%float).

(** The features whose verdict is drift: the numeric family, then the
    categorical one, each in the order of its list. *)
Definition drifted (self : t) : list string :=
filter (numeric_verdict self) (continuous_columns self)
++ filter (categorical_verdict self) (categorical_columns self).

(** A family completes when it is not empty and the test of each of its
    features returns. *)
Definition numeric_family_completes (self : t) : Prop :=
continuous_columns self <> [] /\
forall f, In f (continuous_columns self) -> exists p, numeric_test self f = Ok p.

Definition categorical_family_completes (self : t) : Prop :=
categorical_columns self <> [] /\
forall f, In f (categorical_columns self) ->
          exists p, categorical_test self f = Ok p.

(** The data of the table [generate_null_counts] styles: the two series
    [pd.concat] lays side by side, under the keys pdf1 and pdf2. *)
Definition generate_null_counts (self : t)
  : list (string * float) * list (string * float) :=
(null_percent (pdf1 self), null_percent (pdf2 self)).

End Class.

Arguments pdf1 {value} self : rename.
Arguments pdf2 {value} self : rename.
Arguments alpha {value} self : rename.
Arguments categorical_columns {value} self : rename.
Arguments continuous_columns {value} self : rename.
Arguments init {value} pdf1 pdf2 cat_cols num_cols alpha.
Arguments numeric_test {value} ks_2samp self num.
Arguments numeric_step {value} ks_2samp self corrected_alpha num.
Arguments handle_numeric {value} ks_2samp self.
Arguments categorical_test {value} value_eq_dec value_leb chi2_contingency
  self feature.
Arguments categorical_step {value} value_eq_dec value_leb chi2_contingency
  self corrected_alpha feature.
Arguments handle_categorical {value} value_eq_dec value_leb chi2_contingency
  self.
Arguments run {value} value_eq_dec value_leb ks_2samp chi2_contingency self.
Arguments numeric_verdict {value} ks_2samp self.
Arguments categorical_verdict {value} value_eq_dec value_leb chi2_contingency
  self.
Arguments drifted {value} value_eq_dec value_leb ks_2samp chi2_contingency
  self.
Arguments generate_percent_change {value} describe self.
Arguments generate_null_counts {value} self.
Arguments numeric_family_completes {value} ks_2samp self.
Arguments categorical_family_completes {value} value_eq_dec value_leb
  chi2_contingency self.

End Monitor.

(** ** The cells of the notebook

    The cells that the class gathers (source lines 330-399) and the helper
    [calculate_ks] (lines 158-176).  The cells read the globals [pdf1],
    [pdf2], [num_cols] and [cat_cols], which are arguments here.  Plots and
    their titles are left out. *)

Module Notebook.

Section Cells.

Variable value : Type.
Variable value_eq_dec : forall a b : value, {a = b} + {a <> b}.
Variable value_leb : value -> value -> bool.

(** [stats.ks_2samp(x, y, mode="asymp")] and [stats.chi2_contingency(obs)],
    as for the class. *)
Variable ks_2samp : series value -> series value -> result (float * float).
Variable chi2_contingency : list (list nat) -> result float.

(** [stats.ks_2samp(x, y)], with the default mode. *)
Variable ks_2samp_auto : series value -> series value -> result (float * float).

(** [np.rint]: rounding to the nearest integer. *)
Variable rint : float -> float.

Definition alpha : float := 0.05%float.

Definition numeric_message (num : string) : string :=
num ++ " had statistically significant change between the two samples".

(** The body of the loop of lines 364-368. *)
Definition numeric_step (pdf1 pdf2 : DataFrame value) (alpha_corrected : float)
  (num : string) : Py unit :=
(x <- lift (getitem pdf1 num) ;;
 y <- lift (getitem pdf2 num) ;;
 ks <- lift (ks_2samp x y) ;;
 let ks_pval := snd ks in
 if (ks_pval <=? alpha_corrected)%float
 then print (numeric_message num) else ret tt)%py.

(** Lines 360-368. *)
Definition numeric_cell (pdf1 pdf2 : DataFrame value) (num_cols : list string)
  : Py unit :=
(alpha_corrected <- lift (truediv alpha (List.length num_cols)) ;;
 for_each num_cols (numeric_step pdf1 pdf2 alpha_corrected))%py.

Definition changed_message (feature : string) : string :=
feature ++ " statistically significantly changed".

Definition unchanged_message (feature : string) : string :=
feature ++ " did not statistically significantly change".

(** The body of the loop of lines 390-399. *)
Definition categorical_step (pdf1 pdf2 : DataFrame value)
  (corrected_alpha : float) (feature : string) : Py unit :=
(s1 <- lift (getitem pdf1 feature) ;;
 s2 <- lift (getitem pdf2 feature) ;;
 p <- lift (chi2_contingency (obs value_eq_dec value_leb s1 s2)) ;;
 if (p <? corrected_alpha)%float
 then print (changed_message feature)
 else print (unchanged_message feature))%py.

(** Lines 387-399. *)
Definition categorical_cell (pdf1 pdf2 : DataFrame value)
  (cat_cols : list string) : Py unit :=
(corrected_alpha <- lift (truediv alpha (List.length cat_cols)) ;;
 for_each cat_cols (categorical_step pdf1 pdf2 corrected_alpha))%py.

(** [np.round(x, 3)]: numpy multiplies by 10^3, rounds to the nearest
    integer and divides by 10^3. *)
Definition np_round3 (x : float) : float := (rint (x * 1000) / 1000)%float.

(** [str(b)] on a boolean. *)
Definition str_bool (b : bool) : string := if b then "True" else "False".

(** [calculate_ks]: the pair it returns.  What it names [p_value] is the
    first component of the answer of the test. *)
Definition calculate_ks (distibution_1 distibution_2 : series value)
  : result (float * string) :=
match ks_2samp_auto distibution_1 distibution_2 with
| Raise e => Raise e
| Ok ks =>
    let p_value := np_round3 (fst ks) in
    let ks_drift := str_bool (p_value <? 0.05)%float in
    Ok (p_value, ks_drift)
end.

End Cells.

Arguments numeric_step {value} ks_2samp pdf1 pdf2 alpha_corrected num.
Arguments numeric_cell {value} ks_2samp pdf1 pdf2 num_cols.
Arguments categorical_step {value} value_eq_dec value_leb chi2_contingency
  pdf1 pdf2 corrected_alpha feature.
Arguments categorical_cell {value} value_eq_dec value_leb chi2_contingency
  pdf1 pdf2 cat_cols.
Arguments calculate_ks {value} ks_2samp_auto rint distibution_1 distibution_2.

End Notebook.

(** * Example inputs *)

(** ** Library stand-ins

    The examples run the class on small windows.  The stand-ins below answer
    in place of the library on these windows only; each answers as the
    library does on the inputs the examples give it. *)

Definition cell_eqb (a b : option Z) : bool :=
match a, b with
| Some x, Some y => Z.eqb x y
| None, None => true
| _, _ => false
end.

Fixpoint series_eqb (x y : series Z) : bool :=
match x, y with
| [], [] => true
| a :: x', b :: y' => cell_eqb a b && series_eqb x' y'
| _, _ => false
end.

Fixpoint row_eqb (r1 r2 : list nat) : bool :=
match r1, r2 with
| [], [] => true
| a :: r1', b :: r2' => Nat.eqb a b && row_eqb r1' r2'
| _, _ => false
end.

(** Two identical samples have statistic 0 and p-value 1.  The samples that
    differ in the examples are a hundred values each with disjoint ranges:
    their statistic is 1 and their p-value is far below the thresholds of
    the examples; the stand-in reports 1e-9, and any p-value below the
    threshold gives the same run. *)
Definition ks_example (x y : series Z) : result (float * float) :=
match x, y with
| [], _ | _, [] => Raise (ValueError "Data passed to ks_2samp must not be empty")
| _, _ => if series_eqb x y then Ok (0, 1)%float else Ok (1, 1e-9)%float
end.

(** A table with a row of zeros has zero expected frequencies, which the
    test refuses.  Two equal rows are independent of the window: p-value 1.
    The unequal rows of the examples are [100; 0] and [0; 100], whose
    p-value is far below the thresholds of the examples; the stand-in
    reports 1e-9, and any p-value below the threshold gives the same run. *)
Definition chi2_example (table : list (list nat)) : result float :=
match table with
| [r1; r2] =>
    if Nat.eqb (list_sum r1) 0
    then Raise (ValueError "The internally computed table of expected frequencies has a zero element at (0, 0).")
    else if Nat.eqb (list_sum r2) 0
    then Raise (ValueError "The internally computed table of expected frequencies has a zero element at (1, 0).")
    else if row_eqb r1 r2 then Ok 1%float else Ok 1e-9%float
| _ => Raise (ValueError "No data; `observed` has size 0.")
end.

(** [describe] on windows of one row: the count is 1, the standard
    deviation is NaN, and every other statistic is the value of the row. *)
Definition describe_one_row (df : DataFrame float) : result summary :=
Ok (map (fun c =>
           (fst c,
            fun s =>
              match snd c with
              | [Some x] =>
                  match s with
                  | Count => 1%float
                  | Std => nan
                  | _ => x
                  end
              | _ => nan
              end)) df).

(** ** Windows and monitors *)

(** Two windows of a hundred listings; the second has the prices doubled
    and another property type. *)
Definition baseline : DataFrame Z :=
[("price", repeat (Some 100%Z) 100);
 ("room_type", repeat (Some 0%Z) 60 ++ repeat (Some 1%Z) 40);
 ("property_type", repeat (Some 3%Z) 100)].

Definition comparison : DataFrame Z :=
[("price", repeat (Some 200%Z) 100);
 ("room_type", repeat (Some 0%Z) 60 ++ repeat (Some 1%Z) 40);
 ("property_type", repeat (Some 4%Z) 100)].

(** The second window with the room type missing from every listing. *)
Definition comparison_no_rooms : DataFrame Z :=
[("price", repeat (Some 200%Z) 100);
 ("room_type", repeat None 100);
 ("property_type", repeat (Some 4%Z) 100)].

(** A window without the room type column. *)
Definition comparison_two_columns : DataFrame Z :=
[("price", repeat (Some 200%Z) 100);
 ("property_type", repeat (Some 4%Z) 100)].

(** A window whose second column has another name. *)
Definition comparison_renamed : DataFrame Z :=
[("price", repeat (Some 200%Z) 100);
 ("kind", repeat (Some 0%Z) 60 ++ repeat (Some 1%Z) 40);
 ("property_type", repeat (Some 4%Z) 100)].

Definition monitor_of (pdf1 pdf2 : DataFrame Z) (cat_cols num_cols : list string)
  (alpha : float) : Monitor.t Z :=
{| Monitor.pdf1 := pdf1; Monitor.pdf2 := pdf2; Monitor.alpha := alpha;
   Monitor.categorical_columns := cat_cols;
   Monitor.continuous_columns := num_cols |}.

Definition listings : Monitor.t Z :=
monitor_of baseline comparison ["room_type"; "property_type"] ["price"]
  Monitor.default_alpha.

(** [reviews] is a column of neither window. *)
Definition listings_missing_numeric : Monitor.t Z :=
monitor_of baseline comparison ["room_type"] ["price"; "reviews"]
  Monitor.default_alpha.

Definition listings_missing_categorical : Monitor.t Z :=
monitor_of baseline comparison ["property_type"; "reviews"; "room_type"]
  ["price"] Monitor.default_alpha.

Definition listings_no_rooms : Monitor.t Z :=
monitor_of baseline comparison_no_rooms ["room_type"; "property_type"]
  ["price"] Monitor.default_alpha.

(** The same window twice, and a family-wide alpha of 1. *)
Definition listings_unchanged : Monitor.t Z :=
monitor_of baseline baseline ["room_type"] ["price"] 1%float.

(** A family-wide alpha of 2. *)
Definition listings_alpha_two : Monitor.t Z :=
monitor_of baseline baseline ["room_type"] ["price"] 2%float.

Definition listings_no_numeric : Monitor.t Z :=
monitor_of baseline comparison ["room_type"] [] Monitor.default_alpha.

Definition listings_no_categorical : Monitor.t Z :=
monitor_of baseline comparison [] ["price"] Monitor.default_alpha.

Definition listings_no_categorical_missing : Monitor.t Z :=
monitor_of baseline comparison [] ["reviews"] Monitor.default_alpha.

(** One account per window; the balance goes from -1e-100 to 0. *)
Definition accounts : Monitor.t float :=
{| Monitor.pdf1 := [("balance", [Some (-1e-100)%float])];
   Monitor.pdf2 := [("balance", [Some 0%float])];
   Monitor.alpha := Monitor.default_alpha;
   Monitor.categorical_columns := [];
   Monitor.continuous_columns := ["balance"] |}.

(** One account per window; the balance goes from 0 to 3. *)
Definition accounts_from_zero : Monitor.t float :=
{| Monitor.pdf1 := [("balance", [Some 0%float])];
   Monitor.pdf2 := [("balance", [Some 3%float])];
   Monitor.alpha := Monitor.default_alpha;
   Monitor.categorical_columns := [];
   Monitor.continuous_columns := ["balance"] |}.

(** The reading of the specification under which nulls are a category:
    each row of the table then accounts for every observation of its
    window, null or not. *)
Definition counts_every_observation (s1 s2 : series Z) : Prop :=
map list_sum (obs Z.eq_dec Z.leb s1 s2) = [List.length s1; List.length s2].

(** ** More example inputs *)

(** Rounding to the nearest integer, for a float from 0 up to 2^52: adding
    and then subtracting 2^52 rounds the fraction away. *)
Definition rint_example (x : float) : float :=
(x + 4503599627370496 - 4503599627370496)%float.

(** Tests that answer NaN, as on samples that hold NaN. *)
Definition ks_nan (x y : series Z) : result (float * float) := Ok (nan, nan).

Definition chi2_nan (table : list (list nat)) : result float := Ok nan.

(** The listings with a NaN alpha. *)
Definition listings_alpha_nan : Monitor.t Z :=
monitor_of baseline comparison ["room_type"; "property_type"] ["price"] nan.

(** A window with two columns and no row. *)
Definition no_listing : DataFrame Z :=
[("price", []); ("room_type", [])].

(** * Properties *)

(** ** Computations and loops *)

Lemma bind_lift_ok {A B : Type} (r : result A) (a : A) (k : A -> Py B)
  (out : stdout) :
  r = Ok a -> bind (lift r) k out = k a out.
Proof. intros ->. reflexivity. Qed.

Lemma for_each_app {A : Type} (body : A -> Py unit) (l1 l2 : list A)
  (out : stdout) :
  for_each (l1 ++ l2) body out
  = bind (for_each l1 body) (fun _ => for_each l2 body) out.
Proof.
  revert out. induction l1 as [|x l1 IH]; intros out; simpl.
  - reflexivity.
  - unfold bind in *. destruct (body x out) as [[[]|e] out']; [apply IH|].
    reflexivity.
Qed.

Section Loop.

(** A loop body that tests a feature and announces it when the verdict on
    the p-value is drift. *)
Variable test : string -> result float.
Variable verdict : float -> bool.
Variable announce : string -> string.
Variable body : string -> Py unit.

Hypothesis body_spec : forall f out,
  body f out =
  match test f with
  | Ok p => (Ok tt, if verdict p then out ++ [announce f] else out)
  | Raise e => (Raise e, out)
  end.

Lemma for_each_all_ok (l : list string) (out : stdout) :
  (forall f, In f l -> exists p, test f = Ok p) ->
  for_each l body out = (Ok tt, out ++ map announce (filter (is_drift test verdict) l)).
Proof.
  revert out. induction l as [|f l IH]; intros out Hok; simpl.
  - now rewrite app_nil_r.
  - destruct (Hok f (or_introl eq_refl)) as [p Hp].
    unfold bind. rewrite body_spec. unfold is_drift at 1. rewrite Hp.
    rewrite IH by (intros g Hg; apply Hok; now right).
    destruct (verdict p); simpl; [now rewrite <- app_assoc|reflexivity].
Qed.

Lemma for_each_first_raise (pre post : list string) (f : string) (e : exn)
  (out : stdout) :
  (forall g, In g pre -> exists p, test g = Ok p) ->
  test f = Raise e ->
  for_each (pre ++ f :: post) body out
  = (Raise e, out ++ map announce (filter (is_drift test verdict) pre)).
Proof.
  intros Hpre Hf. rewrite for_each_app. unfold bind.
  rewrite (for_each_all_ok pre out Hpre). simpl.
  unfold bind. rewrite body_spec, Hf. reflexivity.
Qed.

End Loop.

(** ** Sorting and counting *)

Section SortFacts.

Context {A : Type} (le : A -> A -> bool).

Lemma insert_by_perm (x : A) (l : list A) :
  Permutation (insert_by le x l) (x :: l).
Proof.
  induction l as [|y l IH]; simpl; [reflexivity|].
  destruct (le x y); [reflexivity|].
  rewrite IH. apply perm_swap.
Qed.

Lemma sort_by_perm (l : list A) : Permutation (sort_by le l) l.
Proof.
  induction l as [|x l IH]; simpl; [reflexivity|].
  rewrite insert_by_perm. now constructor.
Qed.

Lemma sort_by_In (x : A) (l : list A) : In x (sort_by le l) <-> In x l.
Proof.
  split; apply Permutation_in; [|symmetry]; apply sort_by_perm.
Qed.

Lemma sort_by_NoDup (l : list A) : NoDup l -> NoDup (sort_by le l).
Proof.
  apply Permutation_NoDup. symmetry. apply sort_by_perm.
Qed.

End SortFacts.

Lemma sort_by_map_perm {A B : Type} (le : A -> A -> bool) (g : A -> B)
  (l : list A) :
  Permutation (map g (sort_by le l)) (map g l).
Proof. apply Permutation_map, sort_by_perm. Qed.

Section CountFacts.

Context {value : Type}.
Variable value_eq_dec : forall a b : value, {a = b} + {a <> b}.
Variable value_leb : value -> value -> bool.

Local Abbreviation sorted_counts := (sorted_counts value_eq_dec value_leb).
Local Abbreviation categories := (categories value_eq_dec value_leb).

Lemma dropna_In (k : value) (s : series value) :
  In k (dropna s) <-> In (Some k) s.
Proof.
  induction s as [|[v|] s IH]; simpl.
  - tauto.
  - rewrite IH. split; (intros [H|H]; [left; congruence|now right]).
  - rewrite IH. split; [now right|]. intros [H|H]; [discriminate|exact H].
Qed.

Lemma dropna_map_Some (l : list value) : dropna (map Some l) = l.
Proof. induction l as [|v l IH]; simpl; congruence. Qed.

Lemma unique_from_In (k : value) (l seen : list value) :
  In k (unique_from value value_eq_dec seen l) <-> In k l /\ ~ In k seen.
Proof.
  revert seen. induction l as [|v l IH]; intros seen; simpl.
  - tauto.
  - unfold mem. destruct (in_dec value_eq_dec v seen) as [Hin|Hnin].
    + rewrite IH. split.
      * intros [H1 H2]. split; [now right|exact H2].
      * intros [[->|H1] H2]; [contradiction|now split].
    + simpl. rewrite IH. simpl. split.
      * intros [->|[H1 H2]]; [split; [now left|exact Hnin]|].
        split; [now right|]. intros H. apply H2. now right.
      * intros [[->|H1] H2]; [now left|].
        destruct (value_eq_dec v k) as [->|Hne]; [now left|].
        right. split; [exact H1|]. intros [H|H]; [now apply Hne|now apply H2].
Qed.

Lemma unique_from_NoDup (l seen : list value) :
  NoDup (unique_from value value_eq_dec seen l).
Proof.
  revert seen. induction l as [|v l IH]; intros seen; simpl.
  - constructor.
  - unfold mem. destruct (in_dec value_eq_dec v seen) as [Hin|Hnin].
    + apply IH.
    + constructor; [|apply IH].
      rewrite unique_from_In. intros [_ H]. apply H. now left.
Qed.

Lemma unique_In (k : value) (l : list value) :
  In k (unique value_eq_dec l) <-> In k l.
Proof. unfold unique. rewrite unique_from_In. simpl. tauto. Qed.

Lemma unique_NoDup (l : list value) : NoDup (unique value_eq_dec l).
Proof. apply unique_from_NoDup. Qed.

(** With distinct labels a lookup finds exactly the rows of the frame. *)
Lemma lookup_In (k : value) (n : nat) (c : counts value) :
  NoDup (map fst c) -> (lookup value_eq_dec k c = Some n <-> In (k, n) c).
Proof.
  induction c as [|[k' n'] c IH]; simpl; intros Hnd.
  - split; [discriminate|tauto].
  - inversion Hnd as [|? ? Hnotin Hnd']; subst.
    destruct (value_eq_dec k k') as [->|Hne].
    + split.
      * intros [= ->]. now left.
      * intros [[= ->]|Hin]; [reflexivity|].
        exfalso. apply Hnotin. now apply (in_map fst) in Hin.
    + rewrite (IH Hnd'). split; [now right|].
      intros [[= -> ->]|Hin]; [congruence|exact Hin].
Qed.

Lemma sorted_counts_labels (s : series value) :
  Permutation (map fst (sorted_counts s)) (unique value_eq_dec (dropna s)).
Proof.
  unfold sorted_counts, sort_index, value_counts.
  rewrite !sort_by_map_perm, map_map. simpl. now rewrite map_id.
Qed.

Lemma sorted_counts_NoDup (s : series value) :
  NoDup (map fst (sorted_counts s)).
Proof.
  eapply Permutation_NoDup; [symmetry; apply sorted_counts_labels|].
  apply unique_NoDup.
Qed.

Lemma sorted_counts_label_In (k : value) (s : series value) :
  In k (map fst (sorted_counts s)) <-> In (Some k) s.
Proof.
  rewrite <- dropna_In, <- (unique_In k (dropna s)).
  split; apply Permutation_in; [|symmetry]; apply sorted_counts_labels.
Qed.

Lemma sorted_counts_row (k : value) (n : nat) (s : series value) :
  In (k, n) (sorted_counts s) ->
  n = count value_eq_dec k (dropna s).
Proof.
  unfold sorted_counts, sort_index, value_counts.
  rewrite !sort_by_In, in_map_iff. intros [k' [[= -> ->] _]]. reflexivity.
Qed.

(** A label's count after [fillna(0)]: its number of occurrences, which is
    0 when the window does not have it. *)
Lemma lookup_sorted_counts (k : value) (s : series value) :
  match lookup value_eq_dec k (sorted_counts s) with
  | Some n => n
  | None => 0
  end = count value_eq_dec k (dropna s).
Proof.
  destruct (lookup value_eq_dec k (sorted_counts s)) as [n|] eqn:E.
  - apply lookup_In in E; [|apply sorted_counts_NoDup].
    now apply sorted_counts_row.
  - symmetry. apply count_occ_not_In. intros Hin.
    apply dropna_In, sorted_counts_label_In, in_map_iff in Hin.
    destruct Hin as [[k' n] [Hk Hin]]. simpl in Hk. subst k'.
    apply (lookup_In k n) in Hin; [congruence|apply sorted_counts_NoDup].
Qed.

Lemma categories_eq (s1 s2 : series value) :
  categories s1 s2
  = sort_by value_leb
      (unique value_eq_dec
         (map fst (sorted_counts s1) ++ map fst (sorted_counts s2))).
Proof.
  unfold categories, pdf_counts, fillna0, join_outer.
  rewrite !map_map. simpl. apply map_id.
Qed.

Lemma pdf_counts_rows (s1 s2 : series value) :
  pdf_counts value_eq_dec value_leb s1 s2
  = map (fun k => (k, (count value_eq_dec k (dropna s1),
                       count value_eq_dec k (dropna s2))))
        (categories s1 s2).
Proof.
  rewrite categories_eq. unfold pdf_counts, fillna0, join_outer.
  rewrite map_map. apply map_ext. intros k. simpl.
  now rewrite !lookup_sorted_counts.
Qed.

Lemma categories_NoDup (s1 s2 : series value) : NoDup (categories s1 s2).
Proof. rewrite categories_eq. apply sort_by_NoDup, unique_NoDup. Qed.

Lemma categories_In (k : value) (s1 s2 : series value) :
  In k (categories s1 s2) <-> In (Some k) s1 \/ In (Some k) s2.
Proof.
  rewrite categories_eq, sort_by_In, unique_In, in_app_iff.
  now rewrite !sorted_counts_label_In.
Qed.

Lemma obs_rows (s1 s2 : series value) :
  obs value_eq_dec value_leb s1 s2
  = [map (fun k => count value_eq_dec k (dropna s1)) (categories s1 s2);
     map (fun k => count value_eq_dec k (dropna s2)) (categories s1 s2)].
Proof.
  unfold obs. rewrite pdf_counts_rows, !map_map. reflexivity.
Qed.

Lemma list_sum_cons (n : nat) (l : list nat) :
  list_sum (n :: l) = n + list_sum l.
Proof. reflexivity. Qed.

Lemma sum_counts_cons_notin (x : value) (l cats : list value) :
  ~ In x cats ->
  list_sum (map (fun k => count value_eq_dec k (x :: l)) cats)
  = list_sum (map (fun k => count value_eq_dec k l) cats).
Proof.
  intros Hnin. f_equal. apply map_ext_in. intros k Hk. unfold count.
  apply count_occ_cons_neq. intros ->. contradiction.
Qed.

Lemma sum_counts_cons_in (x : value) (l cats : list value) :
  NoDup cats -> In x cats ->
  list_sum (map (fun k => count value_eq_dec k (x :: l)) cats)
  = S (list_sum (map (fun k => count value_eq_dec k l) cats)).
Proof.
  induction cats as [|c cats IH]; intros Hnd Hin; [contradiction|].
  inversion Hnd as [|? ? Hnotin Hnd']; subst.
  rewrite !map_cons, !list_sum_cons.
  destruct (value_eq_dec x c) as [->|Hne].
  - rewrite (sum_counts_cons_notin c l cats Hnotin). unfold count.
    now rewrite count_occ_cons_eq.
  - destruct Hin as [->|Hin]; [congruence|].
    rewrite (IH Hnd' Hin). unfold count.
    rewrite (count_occ_cons_neq value_eq_dec l Hne). lia.
Qed.

(** Counting every element of [l] over distinct labels that cover [l]
    counts each element once. *)
Lemma sum_counts_covering (cats l : list value) :
  NoDup cats -> (forall k, In k l -> In k cats) ->
  list_sum (map (fun k => count value_eq_dec k l) cats) = List.length l.
Proof.
  intros Hnd. induction l as [|x l IH]; intros Hcov.
  - unfold count. simpl. clear. induction cats; simpl; auto.
  - rewrite sum_counts_cons_in by (auto; apply Hcov; now left).
    simpl. f_equal. apply IH. intros k Hk. apply Hcov. now right.
Qed.

End CountFacts.

(** ** Binary64 facts *)

Lemma eqb_leb_ltb (p t : float) :
  (p =? t)%float = true ->
  (p <=? t)%float = true /\ (p <? t)%float = false.
Proof.
  rewrite FloatAxioms.eqb_spec, FloatAxioms.leb_spec, FloatAxioms.ltb_spec.
  unfold SFeqb, SFleb, SFltb.
  destruct (SFcompare (Prim2SF p) (Prim2SF t)) as [[]|]; intros H;
    try discriminate; split; reflexivity.
Qed.

(** Rounding keeps the sign it is given. *)
Lemma SFabs_round_aux (s : bool) (m e : Z) (l : location) :
  SFabs (binary_round_aux prec emax s m e l)
  = binary_round_aux prec emax false m e l.
Proof.
  unfold binary_round_aux.
  destruct (shr_fexp prec emax m e l) as [mrs' e'].
  destruct (shr_fexp prec emax _ e' loc_Exact) as [mrs'' e''].
  destruct (shr_m mrs''); try reflexivity.
  destruct (Z.leb e'' (emax - prec)); reflexivity.
Qed.

Lemma SFabs_div (x y : spec_float) :
  SFabs (SFdiv prec emax x y) = SFdiv prec emax (SFabs x) (SFabs y).
Proof.
  destruct x as [sx|sx| |sx mx ex], y as [sy|sy| |sy my ey];
    try reflexivity.
  cbn [SFdiv SFabs].
  destruct (SFdiv_core_binary prec emax (Z.pos mx) ex (Z.pos my) ey)
    as [[mz ez] lz].
  apply SFabs_round_aux.
Qed.

Lemma SFabs_add_nonneg (x y : spec_float) :
  SFleb (S754_zero false) x = true -> SFleb (S754_zero false) y = true ->
  SFabs (SFadd prec emax x y) = SFadd prec emax (SFabs x) (SFabs y).
Proof.
  destruct x as [sx|sx| |sx mx ex], y as [sy|sy| |sy my ey];
    try discriminate; cbn [SFleb SFcompare];
    try (destruct sx; try discriminate); try (destruct sy; try discriminate);
    try reflexivity; intros _ _.
  cbn [SFadd SFabs cond_Zopp Z.add binary_normalize]. unfold binary_round.
  destruct (shl_align _ _ _) as [mz ez']. apply SFabs_round_aux.
Qed.

Lemma abs_div (x y : float) :
  (PrimFloat.abs (x / y) = PrimFloat.abs x / PrimFloat.abs y)%float.
Proof.
  apply Prim2SF_inj.
  rewrite FloatAxioms.abs_spec, !FloatAxioms.div_spec, !FloatAxioms.abs_spec.
  apply SFabs_div.
Qed.

Lemma abs_add_nonneg (x y : float) :
  (0 <=? x)%float = true -> (0 <=? y)%float = true ->
  (PrimFloat.abs (x + y) = PrimFloat.abs x + PrimFloat.abs y)%float.
Proof.
  rewrite !FloatAxioms.leb_spec. intros Hx Hy. apply Prim2SF_inj.
  rewrite FloatAxioms.abs_spec, !FloatAxioms.add_spec, !FloatAxioms.abs_spec.
  now apply SFabs_add_nonneg.
Qed.

(** On a baseline statistic that is not negative the cell of the source is
    the percent change of the specification. *)
Lemma percent_change_cell_nonneg (a b : float) :
  (0 <=? a)%float = true ->
  percent_change_cell a b = claimed_percent_change a b.
Proof.
  intros Ha. unfold percent_change_cell, claimed_percent_change.
  rewrite abs_div, (abs_add_nonneg a epsilon Ha eq_refl). reflexivity.
Qed.

(** ** Frames and summary tables *)

Lemma getitem_absent {value : Type} (df : DataFrame value) (key : string) :
  ~ In key (columns df) -> getitem df key = Raise (KeyError key).
Proof.
  induction df as [|[name col] df IH]; simpl; intros Hnin; [reflexivity|].
  destruct (String.eqb_spec name key) as [->|Hne].
  - exfalso. apply Hnin. now left.
  - apply IH. intros H. apply Hnin. now right.
Qed.

Lemma getitem_raise {value : Type} (df : DataFrame value) (key : string)
  (e : exn) :
  getitem df key = Raise e -> e = KeyError key.
Proof.
  induction df as [|[name col] df IH]; simpl; [congruence|].
  destruct (String.eqb name key); [discriminate|exact IH].
Qed.

Lemma all_index_eq (i1 i2 : list string) :
  List.length i1 = List.length i2 ->
  all (map (fun ab => String.eqb (fst ab) (snd ab)) (combine i1 i2)) = true
  <-> i1 = i2.
Proof.
  revert i2. induction i1 as [|a i1 IH]; intros [|b i2] Hlen;
    try discriminate; simpl.
  - tauto.
  - injection Hlen as Hlen. unfold all in *. simpl.
    rewrite andb_true_iff, (IH i2 Hlen). destruct (String.eqb_spec a b).
    + subst. split; [intros [_ ->]; reflexivity|].
      intros [= ->]. now split.
    + split; [intros [H _]; discriminate|]. intros [= -> ->]. congruence.
Qed.

Lemma select_all_present (table : summary) (names : list string) :
  (forall name, In name names -> column table name <> None) ->
  select table names
  = Ok (map (fun name =>
               (name, match column table name with
                      | Some c => c
                      | None => fun _ => 0%float
                      end)) names).
Proof.
  induction names as [|name names IH]; intros Hall; simpl; [reflexivity|].
  specialize (Hall name (or_introl eq_refl)) as Hname.
  unfold column in *.
  destruct (find (fun c => String.eqb (fst c) name) table) as [c|];
    [|now contradiction Hname].
  rewrite IH by (intros n Hn; apply Hall; now right). reflexivity.
Qed.

Lemma column_map_names (g : string -> summary_column) (names : list string)
  (name : string) :
  In name names ->
  column (map (fun n => (n, g n)) names) name = Some (g name).
Proof.
  unfold column. induction names as [|n names IH]; simpl; [tauto|].
  destruct (String.eqb_spec n name) as [->|Hne]; [reflexivity|].
  intros [H|H]; [contradiction|now apply IH].
Qed.

Lemma percent_change_map (g1 g2 : string -> summary_column)
  (names : list string) :
  percent_change (map (fun n => (n, g1 n)) names)
                 (map (fun n => (n, g2 n)) names)
  = map (fun n => (n, fun s => percent_change_cell (g1 n s) (g2 n s))) names.
Proof.
  unfold percent_change. induction names as [|n names IH]; simpl;
    [reflexivity|]. now rewrite IH.
Qed.

(** ** The handlers *)

Section Handlers.

Context {value : Type}.
Variable value_eq_dec : forall a b : value, {a = b} + {a <> b}.
Variable value_leb : value -> value -> bool.
Variable ks_2samp : series value -> series value -> result (float * float).
Variable chi2_contingency : list (list nat) -> result float.

Local Abbreviation numeric_test := (Monitor.numeric_test ks_2samp).
Local Abbreviation numeric_step := (Monitor.numeric_step ks_2samp).
Local Abbreviation handle_numeric := (Monitor.handle_numeric ks_2samp).
Local Abbreviation numeric_verdict := (Monitor.numeric_verdict ks_2samp).
Local Abbreviation categorical_test :=
  (Monitor.categorical_test value_eq_dec value_leb chi2_contingency).
Local Abbreviation categorical_step :=
  (Monitor.categorical_step value_eq_dec value_leb chi2_contingency).
Local Abbreviation handle_categorical :=
  (Monitor.handle_categorical value_eq_dec value_leb chi2_contingency).
Local Abbreviation categorical_verdict :=
  (Monitor.categorical_verdict value_eq_dec value_leb chi2_contingency).
Local Abbreviation run :=
  (Monitor.run value_eq_dec value_leb ks_2samp chi2_contingency).
Local Abbreviation drifted :=
  (Monitor.drifted value_eq_dec value_leb ks_2samp chi2_contingency).

Implicit Types (self : Monitor.t value) (out : stdout).

Lemma truediv_nonempty {A : Type} (a : float) (l : list A) :
  l <> [] -> truediv a (List.length l) = Ok (a / float_of_len (List.length l))%float.
Proof. destruct l; [congruence|reflexivity]. Qed.

Lemma numeric_step_spec self (ca : float) (f : string) out :
  numeric_step self ca f out =
  match numeric_test self f with
  | Ok p =>
      (Ok tt, if (p <=? ca)%float
              then out ++ [Monitor.drift_message f] else out)
  | Raise e => (Raise e, out)
  end.
Proof.
  unfold Monitor.numeric_step, Monitor.numeric_test, bind, lift.
  destruct (getitem (Monitor.pdf1 self) f) as [x|e]; [|reflexivity].
  destruct (getitem (Monitor.pdf2 self) f) as [y|e]; [|reflexivity].
  destruct (ks_2samp x y) as [[ks_stat ks_pval]|e]; [|reflexivity].
  cbn [snd]. destruct (ks_pval <=? ca)%float; reflexivity.
Qed.

Lemma categorical_step_spec self (ca : float) (f : string) out :
  categorical_step self ca f out =
  match categorical_test self f with
  | Ok p =>
      (Ok tt, if (p <? ca)%float
              then out ++ [Monitor.drift_message f] else out)
  | Raise e => (Raise e, out)
  end.
Proof.
  unfold Monitor.categorical_step, Monitor.categorical_test, bind, lift.
  destruct (getitem (Monitor.pdf1 self) f) as [s1|e]; [|reflexivity].
  destruct (getitem (Monitor.pdf2 self) f) as [s2|e]; [|reflexivity].
  destruct (chi2_contingency _) as [p|e]; [|reflexivity].
  destruct (p <? ca)%float; reflexivity.
Qed.

Lemma handle_numeric_empty self out :
  Monitor.continuous_columns self = [] ->
  handle_numeric self out
  = (Raise (ZeroDivisionError "float division by zero"), out).
Proof. unfold Monitor.handle_numeric. intros ->. reflexivity. Qed.

Lemma handle_categorical_empty self out :
  Monitor.categorical_columns self = [] ->
  handle_categorical self out
  = (Raise (ZeroDivisionError "float division by zero"), out).
Proof. unfold Monitor.handle_categorical. intros ->. reflexivity. Qed.

Lemma handle_numeric_ok self out :
  Monitor.continuous_columns self <> [] ->
  (forall f, In f (Monitor.continuous_columns self) ->
             exists p, numeric_test self f = Ok p) ->
  handle_numeric self out
  = (Ok tt, out ++ map Monitor.drift_message
                       (filter (numeric_verdict self)
                               (Monitor.continuous_columns self))).
Proof.
  intros Hne Hok. unfold Monitor.handle_numeric.
  rewrite (bind_lift_ok _ _ _ _ (truediv_nonempty _ _ Hne)).
  apply for_each_all_ok; [|exact Hok].
  intros f o. apply numeric_step_spec.
Qed.

Lemma handle_categorical_ok self out :
  Monitor.categorical_columns self <> [] ->
  (forall f, In f (Monitor.categorical_columns self) ->
             exists p, categorical_test self f = Ok p) ->
  handle_categorical self out
  = (Ok tt, out ++ map Monitor.drift_message
                       (filter (categorical_verdict self)
                               (Monitor.categorical_columns self))).
Proof.
  intros Hne Hok. unfold Monitor.handle_categorical.
  rewrite (bind_lift_ok _ _ _ _ (truediv_nonempty _ _ Hne)).
  apply for_each_all_ok; [|exact Hok].
  intros f o. apply categorical_step_spec.
Qed.

Lemma handle_numeric_raise self (pre post : list string) (f : string)
  (e : exn) out :
  Monitor.continuous_columns self = pre ++ f :: post ->
  (forall g, In g pre -> exists p, numeric_test self g = Ok p) ->
  numeric_test self f = Raise e ->
  handle_numeric self out
  = (Raise e, out ++ map Monitor.drift_message
                         (filter (numeric_verdict self) pre)).
Proof.
  intros Hcols Hpre Hf. unfold Monitor.handle_numeric.
  assert (Hne : Monitor.continuous_columns self <> [])
    by (rewrite Hcols; now destruct pre).
  rewrite (bind_lift_ok _ _ _ _ (truediv_nonempty _ _ Hne)).
  unfold Monitor.numeric_verdict.
  generalize (Monitor.alpha self
              / float_of_len (List.length (Monitor.continuous_columns self)))%float.
  intros ca. rewrite Hcols.
  apply for_each_first_raise; [|exact Hpre|exact Hf].
  intros g o. apply numeric_step_spec.
Qed.

Lemma handle_categorical_raise self (pre post : list string) (f : string)
  (e : exn) out :
  Monitor.categorical_columns self = pre ++ f :: post ->
  (forall g, In g pre -> exists p, categorical_test self g = Ok p) ->
  categorical_test self f = Raise e ->
  handle_categorical self out
  = (Raise e, out ++ map Monitor.drift_message
                         (filter (categorical_verdict self) pre)).
Proof.
  intros Hcols Hpre Hf. unfold Monitor.handle_categorical.
  assert (Hne : Monitor.categorical_columns self <> [])
    by (rewrite Hcols; now destruct pre).
  rewrite (bind_lift_ok _ _ _ _ (truediv_nonempty _ _ Hne)).
  unfold Monitor.categorical_verdict.
  generalize (Monitor.alpha self
              / float_of_len (List.length (Monitor.categorical_columns self)))%float.
  intros ca. rewrite Hcols.
  apply for_each_first_raise; [|exact Hpre|exact Hf].
  intros g o. apply categorical_step_spec.
Qed.

(** [run] is the numeric handler followed by the categorical one. *)
Lemma run_unfold self out :
  run self out =
  match handle_numeric self out with
  | (Ok _, out') =>
      match handle_categorical self out' with
      | (Ok _, out'') => (Ok PyNone, out'')
      | (Raise e, out'') => (Raise e, out'')
      end
  | (Raise e, out') => (Raise e, out')
  end.
Proof.
  unfold Monitor.run, bind, ret.
  destruct (handle_numeric self out) as [[[]|e] out']; [|reflexivity].
  destruct (handle_categorical self out') as [[[]|e] out'']; reflexivity.
Qed.

Lemma numeric_test_absent self (f : string) :
  ~ In f (columns (Monitor.pdf1 self)) \/ ~ In f (columns (Monitor.pdf2 self)) ->
  numeric_test self f = Raise (KeyError f).
Proof.
  unfold Monitor.numeric_test. intros [H|H].
  - now rewrite (getitem_absent _ _ H).
  - rewrite (getitem_absent _ _ H).
    destruct (getitem (Monitor.pdf1 self) f) as [x|e] eqn:E; [reflexivity|].
    now rewrite (getitem_raise _ _ _ E).
Qed.

Lemma categorical_test_absent self (f : string) :
  ~ In f (columns (Monitor.pdf1 self)) \/ ~ In f (columns (Monitor.pdf2 self)) ->
  categorical_test self f = Raise (KeyError f).
Proof.
  unfold Monitor.categorical_test. intros [H|H].
  - now rewrite (getitem_absent _ _ H).
  - rewrite (getitem_absent _ _ H).
    destruct (getitem (Monitor.pdf1 self) f) as [x|e] eqn:E; [reflexivity|].
    now rewrite (getitem_raise _ _ _ E).
Qed.

End Handlers.

(** ** The run *)

Section Run.

Context {value : Type}.
Variable value_eq_dec : forall a b : value, {a = b} + {a <> b}.
Variable value_leb : value -> value -> bool.
Variable ks_2samp : series value -> series value -> result (float * float).
Variable chi2_contingency : list (list nat) -> result float.
Variable describe : DataFrame value -> result summary.

Local Abbreviation numeric_test := (Monitor.numeric_test ks_2samp).
Local Abbreviation numeric_step := (Monitor.numeric_step ks_2samp).
Local Abbreviation handle_numeric := (Monitor.handle_numeric ks_2samp).
Local Abbreviation numeric_verdict := (Monitor.numeric_verdict ks_2samp).
Local Abbreviation categorical_test :=
  (Monitor.categorical_test value_eq_dec value_leb chi2_contingency).
Local Abbreviation categorical_step :=
  (Monitor.categorical_step value_eq_dec value_leb chi2_contingency).
Local Abbreviation handle_categorical :=
  (Monitor.handle_categorical value_eq_dec value_leb chi2_contingency).
Local Abbreviation categorical_verdict :=
  (Monitor.categorical_verdict value_eq_dec value_leb chi2_contingency).
Local Abbreviation run :=
  (Monitor.run value_eq_dec value_leb ks_2samp chi2_contingency).
Local Abbreviation drifted :=
  (Monitor.drifted value_eq_dec value_leb ks_2samp chi2_contingency).
Local Abbreviation generate_percent_change :=
  (Monitor.generate_percent_change describe).
Local Abbreviation numeric_family_completes :=
  (Monitor.numeric_family_completes ks_2samp).
Local Abbreviation categorical_family_completes :=
  (Monitor.categorical_family_completes value_eq_dec value_leb
     chi2_contingency).

Implicit Types (self : Monitor.t value) (out : stdout).

Lemma run_numeric_raise self (pre post : list string) (f : string) (e : exn)
  out :
  Monitor.continuous_columns self = pre ++ f :: post ->
  (forall g, In g pre -> exists p, numeric_test self g = Ok p) ->
  numeric_test self f = Raise e ->
  run self out
  = (Raise e, out ++ map Monitor.drift_message
                         (filter (numeric_verdict self) pre)).
Proof.
  intros Hcols Hpre Hf. rewrite run_unfold.
  now rewrite (handle_numeric_raise _ _ pre post f e out Hcols Hpre Hf).
Qed.

Lemma run_categorical_raise self (pre post : list string) (f : string)
  (e : exn) out :
  numeric_family_completes self ->
  Monitor.categorical_columns self = pre ++ f :: post ->
  (forall g, In g pre -> exists p, categorical_test self g = Ok p) ->
  categorical_test self f = Raise e ->
  run self out
  = (Raise e,
     out ++ map Monitor.drift_message
                (filter (numeric_verdict self) (Monitor.continuous_columns self)
                 ++ filter (categorical_verdict self) pre)).
Proof.
  intros [Hne Hnum] Hcols Hpre Hf. rewrite run_unfold.
  rewrite (handle_numeric_ok _ _ _ Hne Hnum).
  rewrite (handle_categorical_raise _ _ _ _ pre post f e _ Hcols Hpre Hf).
  now rewrite map_app, app_assoc.
Qed.

Lemma run_categorical_empty self out :
  numeric_family_completes self ->
  Monitor.categorical_columns self = [] ->
  run self out
  = (Raise (ZeroDivisionError "float division by zero"),
     out ++ map Monitor.drift_message
                (filter (numeric_verdict self)
                        (Monitor.continuous_columns self))).
Proof.
  intros [Hne Hnum] Hcat. rewrite run_unfold.
  rewrite (handle_numeric_ok _ _ _ Hne Hnum).
  now rewrite (handle_categorical_empty _ _ _ _ _ Hcat).
Qed.

(** C1 (amended): when both families complete, [run] hands back [None] and
    calls [on_drift] on exactly the features whose verdict is drift, the
    numeric family first and then the categorical one, each in the order of
    its list. *)
Theorem run_announces_drift_in_order self out :
  numeric_family_completes self ->
  categorical_family_completes self ->
  run self out = (Ok PyNone, out ++ map Monitor.drift_message (drifted self)).
Proof.
  intros [Hn Hnum] [Hc Hcat]. rewrite run_unfold.
  rewrite (handle_numeric_ok _ _ _ Hn Hnum).
  rewrite (handle_categorical_ok _ _ _ _ _ Hc Hcat).
  unfold Monitor.drifted. now rewrite map_app, app_assoc.
Qed.

(** C2 (amended): windows whose column indexes differ are refused when the
    monitor is constructed, with an AssertionError when the indexes have the
    same length and a ValueError otherwise, so that no test runs.  A listed
    feature absent from a window is met only when its turn comes: [run]
    ends with KeyError on that feature, after the features before it were
    tested and the drift among them announced. *)
Theorem malformed_input_failures :
  (forall (pdf1 pdf2 : DataFrame value) (cat_cols num_cols : list string)
          (alpha : float),
      columns pdf1 <> columns pdf2 ->
      Monitor.init pdf1 pdf2 cat_cols num_cols alpha
      = Raise (if Nat.eqb (List.length (columns pdf1))
                          (List.length (columns pdf2))
               then AssertionError "Columns do not match"
               else ValueError "Lengths must match to compare"))
  /\ (forall self (pre post : list string) (f : string) out,
         Monitor.continuous_columns self = pre ++ f :: post ->
         (forall g, In g pre -> exists p, numeric_test self g = Ok p) ->
         ~ In f (columns (Monitor.pdf1 self))
         \/ ~ In f (columns (Monitor.pdf2 self)) ->
         run self out
         = (Raise (KeyError f),
            out ++ map Monitor.drift_message
                       (filter (numeric_verdict self) pre)))
  /\ (forall self (pre post : list string) (f : string) out,
         numeric_family_completes self ->
         Monitor.categorical_columns self = pre ++ f :: post ->
         (forall g, In g pre -> exists p, categorical_test self g = Ok p) ->
         ~ In f (columns (Monitor.pdf1 self))
         \/ ~ In f (columns (Monitor.pdf2 self)) ->
         run self out
         = (Raise (KeyError f),
            out ++ map Monitor.drift_message
                       (filter (numeric_verdict self)
                               (Monitor.continuous_columns self)
                        ++ filter (categorical_verdict self) pre))).
Proof.
  split; [|split].
  - intros pdf1 pdf2 cat_cols num_cols alpha Hdiff.
    unfold Monitor.init, index_eq.
    destruct (Nat.eqb_spec (List.length (columns pdf1))
                           (List.length (columns pdf2))) as [Hlen|Hlen];
      [|reflexivity].
    destruct (all _) eqn:Hall; [|reflexivity].
    apply (all_index_eq _ _ Hlen) in Hall. contradiction.
  - intros self pre post f out Hcols Hpre Habs.
    apply (run_numeric_raise self pre post f _ out Hcols Hpre).
    now apply numeric_test_absent.
  - intros self pre post f out Hnum Hcols Hpre Habs.
    apply (run_categorical_raise self pre post f _ out Hnum Hcols Hpre).
    now apply categorical_test_absent.
Qed.

(** C3 (amended): the class has no handler for a failing comparator.  When
    the test of a feature raises, [run] ends with that exception: the drift
    found before it has been announced, nothing records the feature as
    skipped, and the features after it are not evaluated. *)
Theorem comparator_failure_ends_run self (pre post : list string)
  (f : string) (e : exn) out :
  (Monitor.continuous_columns self = pre ++ f :: post ->
   (forall g, In g pre -> exists p, numeric_test self g = Ok p) ->
   numeric_test self f = Raise e ->
   run self out
   = (Raise e, out ++ map Monitor.drift_message
                          (filter (numeric_verdict self) pre)))
  /\ (numeric_family_completes self ->
      Monitor.categorical_columns self = pre ++ f :: post ->
      (forall g, In g pre -> exists p, categorical_test self g = Ok p) ->
      categorical_test self f = Raise e ->
      run self out
      = (Raise e,
         out ++ map Monitor.drift_message
                    (filter (numeric_verdict self)
                            (Monitor.continuous_columns self)
                     ++ filter (categorical_verdict self) pre))).
Proof.
  split.
  - apply run_numeric_raise.
  - apply run_categorical_raise.
Qed.

(** C4 (amended): null values are left out of the frequency counts and of
    the contingency table: the table is the one of the windows with their
    nulls removed, and each of its rows adds up to the number of non-null
    observations of its window. *)
Theorem nulls_are_dropped (s1 s2 : series value) :
  obs value_eq_dec value_leb s1 s2
  = obs value_eq_dec value_leb (map Some (dropna s1)) (map Some (dropna s2))
  /\ map list_sum (obs value_eq_dec value_leb s1 s2)
     = [List.length (dropna s1); List.length (dropna s2)].
Proof.
  split.
  - unfold obs, pdf_counts, sorted_counts, value_counts.
    now rewrite !dropna_map_Some.
  - rewrite obs_rows. cbn [map].
    rewrite !sum_counts_covering; try apply categories_NoDup; try reflexivity;
      intros k Hk; apply categories_In; rewrite <- !dropna_In; tauto.
Qed.

(** C5: when a family of N features completes, its handler compares the
    p-value of every feature with the one threshold alpha / N; N is the
    length of the numeric list for the numeric handler and of the
    categorical list for the categorical one. *)
Theorem bonferroni_threshold_per_family self out :
  (numeric_family_completes self ->
   handle_numeric self out
   = (Ok tt,
     out ++ map Monitor.drift_message
                (filter
                   (is_drift (numeric_test self)
                      (fun p =>
                         (p <=? Monitor.alpha self
                                / float_of_len
                                    (List.length
                                       (Monitor.continuous_columns self)))%float))
                   (Monitor.continuous_columns self))))
  /\ (categorical_family_completes self ->
      handle_categorical self out
      = (Ok tt,
        out ++ map Monitor.drift_message
                   (filter
                      (is_drift (categorical_test self)
                         (fun p =>
                            (p <? Monitor.alpha self
                                  / float_of_len
                                      (List.length
                                         (Monitor.categorical_columns self)))%float))
                      (Monitor.categorical_columns self)))).
Proof.
  split.
  - intros [Hn Hnum]. apply (handle_numeric_ok _ _ _ Hn Hnum).
  - intros [Hc Hcat]. apply (handle_categorical_ok _ _ _ _ _ Hc Hcat).
Qed.

(** C6: a numeric feature is announced exactly when its p-value is at most
    the threshold, a categorical one exactly when its p-value is below it;
    on a p-value equal to the threshold the numeric feature is announced
    and the categorical one is not. *)
Theorem verdict_at_threshold self (ca : float) (f g : string) (p q : float)
  out :
  numeric_test self f = Ok p ->
  categorical_test self g = Ok q ->
  numeric_step self ca f out
  = (Ok tt, if (p <=? ca)%float
            then out ++ [Monitor.drift_message f] else out)
  /\ categorical_step self ca g out
     = (Ok tt, if (q <? ca)%float
               then out ++ [Monitor.drift_message g] else out)
  /\ ((p =? ca)%float = true ->
      numeric_step self ca f out = (Ok tt, out ++ [Monitor.drift_message f]))
  /\ ((q =? ca)%float = true -> categorical_step self ca g out = (Ok tt, out)).
Proof.
  intros Hp Hq.
  rewrite numeric_step_spec, categorical_step_spec, Hp, Hq.
  repeat split.
  - intros H. now rewrite (proj1 (eqb_leb_ltb _ _ H)).
  - intros H. now rewrite (proj2 (eqb_leb_ltb _ _ H)).
Qed.

(** C7 (amended): when both windows are described and each summary has the
    numeric columns, the table has those columns and each cell is
    [100 * |(a - b) / (a + epsilon)|], with [a] the statistic of the first
    window and [b] that of the second: epsilon is added to the signed
    baseline statistic.  Where the baseline statistic is not negative the
    cell is [100 * |a - b| / (|a| + epsilon)]. *)
Theorem percent_change_table self (d1 d2 : summary) :
  describe (Monitor.pdf1 self) = Ok d1 ->
  describe (Monitor.pdf2 self) = Ok d2 ->
  (forall name, In name (Monitor.continuous_columns self) ->
                column d1 name <> None /\ column d2 name <> None) ->
  exists table,
    generate_percent_change self = Ok table
    /\ map fst table = Monitor.continuous_columns self
    /\ forall name c1 c2 s,
         In name (Monitor.continuous_columns self) ->
         column d1 name = Some c1 ->
         column d2 name = Some c2 ->
         cell table name s
         = Some (100 * PrimFloat.abs ((c1 s - c2 s) / (c1 s + epsilon)))%float
         /\ ((0 <=? c1 s)%float = true ->
             cell table name s = Some (claimed_percent_change (c1 s) (c2 s))).
Proof.
  intros Hd1 Hd2 Hcols. unfold Monitor.generate_percent_change.
  rewrite Hd1, Hd2.
  rewrite !select_all_present by (intros n Hn; now apply Hcols).
  rewrite percent_change_map. eexists. split; [reflexivity|]. split.
  - rewrite map_map. apply map_id.
  - intros name c1 c2 s Hin Hc1 Hc2. unfold cell.
    rewrite (column_map_names
               (fun n s => percent_change_cell _ _) _ name Hin).
    rewrite Hc1, Hc2. cbn [option_map]. split; [reflexivity|].
    intros Ha. now rewrite (percent_change_cell_nonneg _ _ Ha).
Qed.

(** C8: the table handed to the independence test has two rows, the first
    window's and the second's, and one column per category; the categories
    are, without repetition, the values observed in either window; a cell is
    the number of occurrences of its category in its window, 0 for a
    category the window does not have. *)
Theorem contingency_table_shape self (feature : string)
  (s1 s2 : series value) :
  getitem (Monitor.pdf1 self) feature = Ok s1 ->
  getitem (Monitor.pdf2 self) feature = Ok s2 ->
  let cats := categories value_eq_dec value_leb s1 s2 in
  categorical_test self feature
  = chi2_contingency
      [map (fun k => count value_eq_dec k (dropna s1)) cats;
       map (fun k => count value_eq_dec k (dropna s2)) cats]
  /\ NoDup cats
  /\ (forall k, In k cats <-> In (Some k) s1 \/ In (Some k) s2)
  /\ (forall k, ~ In (Some k) s1 -> count value_eq_dec k (dropna s1) = 0)
  /\ (forall k, ~ In (Some k) s2 -> count value_eq_dec k (dropna s2) = 0).
Proof.
  intros H1 H2 cats. unfold Monitor.categorical_test. rewrite H1, H2.
  rewrite obs_rows. split; [reflexivity|].
  split; [apply categories_NoDup|].
  split; [intros k; apply categories_In|].
  split; intros k Hk; apply count_occ_not_In; now rewrite dropna_In.
Qed.

(** C9 (amended): the corrector is the division [alpha / len(columns)] at
    the head of each handler.  It fails exactly on an empty family, with
    ZeroDivisionError, and the handler ends there; on a family that is not
    empty the loop runs with [alpha / N] whatever [alpha] is, and a family
    that completes ends without an exception. *)
Theorem corrector_fails_only_on_empty_family self out :
  handle_numeric self out
  = match Monitor.continuous_columns self with
    | [] => (Raise (ZeroDivisionError "float division by zero"), out)
    | cols =>
        for_each cols
          (numeric_step self
             (Monitor.alpha self / float_of_len (List.length cols))%float)
          out
    end
  /\ handle_categorical self out
     = match Monitor.categorical_columns self with
       | [] => (Raise (ZeroDivisionError "float division by zero"), out)
       | cols =>
           for_each cols
             (categorical_step self
                (Monitor.alpha self / float_of_len (List.length cols))%float)
             out
       end
  /\ (numeric_family_completes self -> fst (handle_numeric self out) = Ok tt)
  /\ (categorical_family_completes self ->
      fst (handle_categorical self out) = Ok tt).
Proof.
  split; [|split; [|split]].
  - unfold Monitor.handle_numeric.
    now destruct (Monitor.continuous_columns self).
  - unfold Monitor.handle_categorical.
    now destruct (Monitor.categorical_columns self).
  - intros [Hn Hnum]. now rewrite (handle_numeric_ok _ _ _ Hn Hnum).
  - intros [Hc Hcat]. now rewrite (handle_categorical_ok _ _ _ _ _ Hc Hcat).
Qed.

(** C10 (amended): with an empty numeric list [run] divides alpha by zero
    before any feature is evaluated.  With an empty categorical list the
    categorical handler divides alpha by zero before any categorical feature
    is evaluated; [run] gets there once the numeric family has completed and
    its drift has been announced.  Nothing guards the division. *)
Theorem empty_family_divides_by_zero self out :
  (Monitor.continuous_columns self = [] ->
   run self out = (Raise (ZeroDivisionError "float division by zero"), out))
  /\ (Monitor.categorical_columns self = [] ->
      handle_categorical self out
      = (Raise (ZeroDivisionError "float division by zero"), out))
  /\ (Monitor.categorical_columns self = [] ->
      numeric_family_completes self ->
      run self out
      = (Raise (ZeroDivisionError "float division by zero"),
         out ++ map Monitor.drift_message
                    (filter (numeric_verdict self)
                            (Monitor.continuous_columns self)))).
Proof.
  split; [|split].
  - intros H. rewrite run_unfold.
    now rewrite (handle_numeric_empty _ _ _ H).
  - apply handle_categorical_empty.
  - intros Hcat Hnum. now apply run_categorical_empty.
Qed.

End Run.

(** ** The claims on the example inputs *)

Ltac family_completes :=
  split; [discriminate|];
  intros ? Hin; simpl in Hin;
  repeat (destruct Hin as [<-|Hin]; [eexists; vm_compute; reflexivity|]);
  contradiction.

Ltac all_return :=
  intros ? Hin; simpl in Hin;
  repeat (destruct Hin as [<-|Hin]; [eexists; vm_compute; reflexivity|]);
  contradiction.

(** C1, as stated, fails: on the two windows of listings the price and the
    property type drift, [run] announces both through [on_drift] and hands
    back [None], not the sequence of the two. *)
Lemma run_returns_none :
  Monitor.run Z.eq_dec Z.leb ks_example chi2_example listings []
  = (Ok PyNone, ["Drift found in price!"; "Drift found in property_type!"])
  /\ Monitor.drifted Z.eq_dec Z.leb ks_example chi2_example listings
     = ["price"; "property_type"]
  /\ fst (Monitor.run Z.eq_dec Z.leb ks_example chi2_example listings [])
     <> Ok (PyList
              (Monitor.drifted Z.eq_dec Z.leb ks_example chi2_example
                 listings)).
Proof.
  split; [vm_compute; reflexivity|].
  split; [vm_compute; reflexivity|].
  vm_compute. discriminate.
Qed.

(** The listings: both families complete; the price and the property type
    are announced, in that order. *)
Lemma run_announces_drift_in_order_witness :
  Monitor.run Z.eq_dec Z.leb ks_example chi2_example listings []
  = (Ok PyNone,
     [] ++ map Monitor.drift_message
               (Monitor.drifted Z.eq_dec Z.leb ks_example chi2_example
                  listings)).
Proof.
  apply (run_announces_drift_in_order
           Z.eq_dec Z.leb ks_example chi2_example listings []);
    family_completes.
Defined.

(** C2, as stated, fails: [reviews] is a column of neither window, the
    windows have the same columns and the monitor is constructed; [run]
    tests the price, announces its drift and only then ends, with a
    KeyError. *)
Lemma absent_feature_fails_late :
  Monitor.init baseline comparison ["room_type"] ["price"; "reviews"]
    Monitor.default_alpha
  = Ok listings_missing_numeric
  /\ Monitor.run Z.eq_dec Z.leb ks_example chi2_example
       listings_missing_numeric []
     = (Raise (KeyError "reviews"), ["Drift found in price!"]).
Proof. split; vm_compute; reflexivity. Qed.

(** A renamed column and a dropped column are refused at construction; a
    feature missing from the windows ends the run when its turn comes. *)
Lemma malformed_input_failures_witness :
  Monitor.init baseline comparison_renamed ["room_type"] ["price"]
    Monitor.default_alpha
  = Raise (AssertionError "Columns do not match")
  /\ Monitor.init baseline comparison_two_columns ["room_type"] ["price"]
       Monitor.default_alpha
     = Raise (ValueError "Lengths must match to compare")
  /\ Monitor.run Z.eq_dec Z.leb ks_example chi2_example
       listings_missing_numeric []
     = (Raise (KeyError "reviews"),
        [] ++ map Monitor.drift_message
                  (filter (Monitor.numeric_verdict ks_example
                             listings_missing_numeric) ["price"]))
  /\ Monitor.run Z.eq_dec Z.leb ks_example chi2_example
       listings_missing_categorical []
     = (Raise (KeyError "reviews"),
        [] ++ map Monitor.drift_message
                  (filter (Monitor.numeric_verdict ks_example
                             listings_missing_categorical) ["price"]
                   ++ filter (Monitor.categorical_verdict Z.eq_dec Z.leb
                                chi2_example listings_missing_categorical)
                        ["property_type"])).
Proof.
  destruct (malformed_input_failures Z.eq_dec Z.leb ks_example chi2_example)
    as (Hinit & Hnum & Hcat).
  split; [|split; [|split]].
  - apply (Hinit baseline comparison_renamed). vm_compute. discriminate.
  - apply (Hinit baseline comparison_two_columns). vm_compute. discriminate.
  - apply (Hnum listings_missing_numeric ["price"] [] "reviews" []).
    + reflexivity.
    + all_return.
    + left. vm_compute. intuition discriminate.
  - apply (Hcat listings_missing_categorical ["property_type"] ["room_type"]
             "reviews" []).
    + family_completes.
    + reflexivity.
    + all_return.
    + left. vm_compute. intuition discriminate.
Defined.

(** C3, as stated, fails: the second window has no room type at all, the
    independence test refuses its table, and [run] ends with the ValueError
    of the test: nothing catches it, and the property type, next in the
    list and drifting, is never evaluated. *)
Lemma failing_comparator_ends_run :
  obs Z.eq_dec Z.leb (repeat (Some 0%Z) 60 ++ repeat (Some 1%Z) 40)
    (repeat None 100)
  = [[60; 40]; [0; 0]]
  /\ Monitor.run Z.eq_dec Z.leb ks_example chi2_example listings_no_rooms []
     = (Raise (ValueError "The internally computed table of expected frequencies has a zero element at (1, 0)."),
        ["Drift found in price!"])
  /\ Monitor.categorical_verdict Z.eq_dec Z.leb chi2_example listings_no_rooms
       "property_type"
     = true.
Proof. repeat split; vm_compute; reflexivity. Qed.

(** A missing numeric column, and a categorical table the test refuses. *)
Lemma comparator_failure_ends_run_witness :
  Monitor.run Z.eq_dec Z.leb ks_example chi2_example
    listings_missing_numeric []
  = (Raise (KeyError "reviews"),
     [] ++ map Monitor.drift_message
               (filter (Monitor.numeric_verdict ks_example
                          listings_missing_numeric) ["price"]))
  /\ Monitor.run Z.eq_dec Z.leb ks_example chi2_example listings_no_rooms []
     = (Raise (ValueError "The internally computed table of expected frequencies has a zero element at (1, 0)."),
        [] ++ map Monitor.drift_message
                  (filter (Monitor.numeric_verdict ks_example
                             listings_no_rooms) ["price"]
                   ++ filter (Monitor.categorical_verdict Z.eq_dec Z.leb
                                chi2_example listings_no_rooms) [])).
Proof.
  split.
  - apply (proj1 (comparator_failure_ends_run Z.eq_dec Z.leb ks_example
                    chi2_example listings_missing_numeric ["price"] []
                    "reviews" (KeyError "reviews") []));
      [reflexivity|all_return|vm_compute; reflexivity].
  - apply (proj2 (comparator_failure_ends_run Z.eq_dec Z.leb ks_example
                    chi2_example listings_no_rooms [] ["property_type"]
                    "room_type" _ []));
      [family_completes|reflexivity|all_return|vm_compute; reflexivity].
Defined.

(** C4, as stated, fails: the first window has one null among its two
    observations; the table has the columns 1 and 2 only and its first row
    adds up to 1. *)
Lemma null_is_not_a_category :
  obs Z.eq_dec Z.leb [Some 1%Z; None] [Some 1%Z; Some 2%Z] = [[1; 0]; [1; 1]]
  /\ ~ counts_every_observation [Some 1%Z; None] [Some 1%Z; Some 2%Z].
Proof.
  split; [vm_compute; reflexivity|].
  unfold counts_every_observation. vm_compute. discriminate.
Qed.

(** The listings: one numeric feature, threshold alpha / 1; two categorical
    features, threshold alpha / 2. *)
Lemma bonferroni_threshold_per_family_witness :
  Monitor.handle_numeric ks_example listings []
  = (Ok tt,
     [] ++ map Monitor.drift_message
               (filter
                  (is_drift (Monitor.numeric_test ks_example listings)
                     (fun p => (p <=? Monitor.default_alpha / float_of_len 1)%float))
                  ["price"]))
  /\ Monitor.handle_categorical Z.eq_dec Z.leb chi2_example listings []
     = (Ok tt,
        [] ++ map Monitor.drift_message
                  (filter
                     (is_drift
                        (Monitor.categorical_test Z.eq_dec Z.leb chi2_example
                           listings)
                        (fun p => (p <? Monitor.default_alpha / float_of_len 2)%float))
                     ["room_type"; "property_type"])).
Proof.
  destruct (bonferroni_threshold_per_family
              Z.eq_dec Z.leb ks_example chi2_example listings [])
    as [Hnum Hcat].
  split; [apply Hnum|apply Hcat]; family_completes.
Defined.

(** The same window twice and alpha 1: both p-values are 1, the threshold;
    the price is announced and the room type is not. *)
Lemma verdict_at_threshold_witness :
  Monitor.numeric_step ks_example listings_unchanged 1%float "price" []
  = (Ok tt, [] ++ [Monitor.drift_message "price"])
  /\ Monitor.categorical_step Z.eq_dec Z.leb chi2_example listings_unchanged
       1%float "room_type" []
     = (Ok tt, []).
Proof.
  destruct (verdict_at_threshold Z.eq_dec Z.leb ks_example chi2_example
              listings_unchanged 1%float "price" "room_type" 1%float 1%float
              [] eq_refl eq_refl)
    as (_ & _ & Hnum & Hcat).
  split; [apply Hnum|apply Hcat]; reflexivity.
Defined.

(** C7, as stated, fails: the balance of the one account goes from -1e-100
    to 0.  Its minimum is -1e-100 in the first window; adding epsilon gives
    0, the division is by zero and the cell is infinite, where
    [100 * |a - b| / (|a| + epsilon)] is 50. *)
Lemma percent_change_negative_baseline :
  (exists table,
      Monitor.generate_percent_change describe_one_row accounts = Ok table
      /\ cell table "balance" Min = Some infinity)
  /\ claimed_percent_change (-1e-100) 0 = 50%float
  /\ percent_change_cell (-1e-100) 0 <> claimed_percent_change (-1e-100) 0.
Proof.
  split; [eexists; split; vm_compute; reflexivity|].
  split; [vm_compute; reflexivity|].
  intros H. apply (f_equal PrimFloat.is_infinity) in H.
  vm_compute in H. discriminate.
Qed.

(** A balance that goes from 0 to 3: the baseline statistic is zero and
    the cell is [100 * 3 / epsilon]. *)
Lemma percent_change_table_witness :
  exists table,
    Monitor.generate_percent_change describe_one_row accounts_from_zero
    = Ok table
    /\ map fst table = ["balance"]
    /\ cell table "balance" Max
       = Some (100 * PrimFloat.abs ((0 - 3) / (0 + epsilon)))%float
    /\ cell table "balance" Max = Some (claimed_percent_change 0 3).
Proof.
  destruct (percent_change_table describe_one_row accounts_from_zero
              [("balance", fun s => match s with
                                    | Count => 1 | Std => nan | _ => 0
                                    end)]%float
              [("balance", fun s => match s with
                                    | Count => 1 | Std => nan | _ => 3
                                    end)]%float
              eq_refl eq_refl)
    as (table & Htable & Hcols & Hcells).
  - intros name [<-|[]]. split; vm_compute; discriminate.
  - exists table. split; [exact Htable|]. split; [exact Hcols|].
    destruct (Hcells "balance" _ _ Max (or_introl eq_refl) eq_refl eq_refl)
      as [Hcell Hclaimed].
    split; [exact Hcell|]. apply Hclaimed. reflexivity.
Defined.

(** The property type of the listings: categories 3 and 4, a hundred of
    each in its window and none in the other. *)
Lemma contingency_table_shape_witness :
  Monitor.categorical_test Z.eq_dec Z.leb chi2_example listings
    "property_type"
  = chi2_example
      [map (fun k => count Z.eq_dec k (dropna (repeat (Some 3%Z) 100)))
           (categories Z.eq_dec Z.leb (repeat (Some 3%Z) 100)
              (repeat (Some 4%Z) 100));
       map (fun k => count Z.eq_dec k (dropna (repeat (Some 4%Z) 100)))
           (categories Z.eq_dec Z.leb (repeat (Some 3%Z) 100)
              (repeat (Some 4%Z) 100))]
  /\ categories Z.eq_dec Z.leb (repeat (Some 3%Z) 100) (repeat (Some 4%Z) 100)
     = [3%Z; 4%Z]
  /\ obs Z.eq_dec Z.leb (repeat (Some 3%Z) 100) (repeat (Some 4%Z) 100)
     = [[100; 0]; [0; 100]].
Proof.
  split; [|split; vm_compute; reflexivity].
  exact (proj1 (contingency_table_shape Z.eq_dec Z.leb chi2_example listings
                  "property_type" (repeat (Some 3%Z) 100)
                  (repeat (Some 4%Z) 100) eq_refl eq_refl)).
Defined.

(** C9, as stated, fails: the family-wide alpha is 2, outside (0, 1]; the
    corrector divides it by the one feature of each family and the run
    completes, with the threshold 2 for both families. *)
Lemma alpha_out_of_range_is_accepted :
  (1 <? Monitor.alpha listings_alpha_two)%float = true
  /\ truediv (Monitor.alpha listings_alpha_two) 1 = Ok 2%float
  /\ Monitor.run Z.eq_dec Z.leb ks_example chi2_example listings_alpha_two []
     = (Ok PyNone, ["Drift found in price!"; "Drift found in room_type!"]).
Proof. repeat split; vm_compute; reflexivity. Qed.

(** Alpha is 2 and both handlers complete. *)
Lemma corrector_fails_only_on_empty_family_witness :
  fst (Monitor.handle_numeric ks_example listings_alpha_two []) = Ok tt
  /\ fst (Monitor.handle_categorical Z.eq_dec Z.leb chi2_example
            listings_alpha_two [])
     = Ok tt.
Proof.
  destruct (corrector_fails_only_on_empty_family Z.eq_dec Z.leb ks_example
              chi2_example listings_alpha_two [])
    as (_ & _ & Hnum & Hcat).
  split; [apply Hnum|apply Hcat]; family_completes.
Defined.

(** C10, as stated, fails: with an empty categorical list and the price in
    the numeric one, [run] tests the price and announces its drift before
    it divides by zero; with [reviews], a column of neither window, in the
    numeric list, [run] ends with a KeyError and divides nothing. *)
Lemma empty_categorical_family_after_numeric :
  Monitor.run Z.eq_dec Z.leb ks_example chi2_example listings_no_categorical []
  = (Raise (ZeroDivisionError "float division by zero"),
     ["Drift found in price!"])
  /\ Monitor.run Z.eq_dec Z.leb ks_example chi2_example
       listings_no_categorical_missing []
     = (Raise (KeyError "reviews"), []).
Proof. split; vm_compute; reflexivity. Qed.

(** An empty numeric list, and an empty categorical list after a numeric
    family that completes. *)
Lemma empty_family_divides_by_zero_witness :
  Monitor.run Z.eq_dec Z.leb ks_example chi2_example listings_no_numeric []
  = (Raise (ZeroDivisionError "float division by zero"), [])
  /\ Monitor.handle_categorical Z.eq_dec Z.leb chi2_example
       listings_no_categorical []
     = (Raise (ZeroDivisionError "float division by zero"), [])
  /\ Monitor.run Z.eq_dec Z.leb ks_example chi2_example
       listings_no_categorical []
     = (Raise (ZeroDivisionError "float division by zero"),
        [] ++ map Monitor.drift_message
                  (filter (Monitor.numeric_verdict ks_example
                             listings_no_categorical) ["price"])).
Proof.
  split; [|split].
  - apply (proj1 (empty_family_divides_by_zero Z.eq_dec Z.leb ks_example
                    chi2_example listings_no_numeric [])).
    reflexivity.
  - apply (proj1 (proj2 (empty_family_divides_by_zero Z.eq_dec Z.leb
                           ks_example chi2_example listings_no_categorical
                           []))).
    reflexivity.
  - apply (proj2 (proj2 (empty_family_divides_by_zero Z.eq_dec Z.leb
                           ks_example chi2_example listings_no_categorical
                           []))); [reflexivity|family_completes].
Defined.

(** * Further properties *)

(** ** Loops that may stop early *)

Lemma tested_prefix (test : string -> result float) (l : list string) :
  exists post, l = tested test l ++ post.
Proof.
  induction l as [|f l [post IH]]; simpl.
  - now exists [].
  - destruct (test f) as [p|e].
    + exists post. simpl. now f_equal.
    + now exists (f :: l).
Qed.

Lemma tested_In (test : string -> result float) (l : list string)
  (f : string) :
  In f (tested test l) -> In f l.
Proof.
  destruct (tested_prefix test l) as [post E]. intros H.
  rewrite E. apply in_or_app. now left.
Qed.

Lemma outcome_ok_tested (test : string -> result float) (l : list string) :
  outcome test l = Ok tt -> tested test l = l.
Proof.
  induction l as [|f l IH]; simpl; [reflexivity|].
  destruct (test f) as [p|e]; [|discriminate].
  intros H. now rewrite (IH H).
Qed.

Section LoopAny.

Variable test : string -> result float.
Variable verdict : float -> bool.
Variable body : string -> Py unit.

(** A body that announces the features whose verdict is drift. *)
Lemma for_each_tested (announce : string -> string) :
  (forall f out,
      body f out =
      match test f with
      | Ok p => (Ok tt, if verdict p then out ++ [announce f] else out)
      | Raise e => (Raise e, out)
      end) ->
  forall l out,
    for_each l body out
    = (outcome test l,
       out ++ map announce (filter (is_drift test verdict) (tested test l))).
Proof.
  intros Hbody l. induction l as [|f l IH]; intros out; simpl.
  - now rewrite app_nil_r.
  - unfold bind. rewrite Hbody.
    destruct (test f) as [p|e] eqn:Hp; simpl; [|now rewrite app_nil_r].
    rewrite IH. replace (is_drift test verdict f) with (verdict p)
      by (unfold is_drift; now rewrite Hp).
    destruct (verdict p); simpl; [now rewrite <- app_assoc|reflexivity].
Qed.

(** A body that reports every feature, one way or the other. *)
Lemma for_each_tested_both (yes no : string -> string) :
  (forall f out,
      body f out =
      match test f with
      | Ok p => (Ok tt, out ++ [if verdict p then yes f else no f])
      | Raise e => (Raise e, out)
      end) ->
  forall l out,
    for_each l body out
    = (outcome test l,
       out ++ map (fun f => if is_drift test verdict f then yes f else no f)
                  (tested test l)).
Proof.
  intros Hbody l. induction l as [|f l IH]; intros out; simpl.
  - now rewrite app_nil_r.
  - unfold bind. rewrite Hbody.
    destruct (test f) as [p|e] eqn:Hp; simpl; [|now rewrite app_nil_r].
    rewrite IH. replace (is_drift test verdict f) with (verdict p)
      by (unfold is_drift; now rewrite Hp).
    now rewrite <- app_assoc.
Qed.

End LoopAny.

(** ** Sorted tables *)

Section SortUnique.

Context {A : Type} (le : A -> A -> bool).

Hypothesis le_total : forall a b, le a b = true \/ le b a = true.
Hypothesis le_trans : forall a b c,
  le a b = true -> le b c = true -> le a c = true.
Hypothesis le_antisym : forall a b, le a b = true -> le b a = true -> a = b.

Local Abbreviation sorted := (StronglySorted (fun a b => le a b = true)).

Lemma insert_by_sorted (x : A) (l : list A) :
  sorted l -> sorted (insert_by le x l).
Proof.
  induction l as [|y l IH]; simpl; intros Hs.
  - constructor; constructor.
  - inversion Hs as [|? ? Hl Hy]; subst. destruct (le x y) eqn:E.
    + constructor; [exact Hs|]. constructor; [exact E|].
      eapply Forall_impl; [|exact Hy]. intros z Hz. now apply (le_trans x y z).
    + constructor; [now apply IH|].
      assert (Hall : Forall (fun z => le y z = true) (x :: l)).
      { constructor; [|exact Hy].
        destruct (le_total x y) as [H|H]; [congruence|exact H]. }
      rewrite Forall_forall in *. intros z Hz. apply Hall.
      now apply (Permutation_in _ (insert_by_perm le x l)).
Qed.

Lemma sort_by_sorted (l : list A) : sorted (sort_by le l).
Proof.
  induction l as [|x l IH]; simpl; [constructor|].
  now apply insert_by_sorted.
Qed.

Lemma sorted_perm_eq (l l' : list A) :
  sorted l -> sorted l' -> Permutation l l' -> l = l'.
Proof.
  revert l'. induction l as [|a l IH]; intros l' Hs Hs' Hp.
  - now apply Permutation_nil in Hp.
  - destruct l' as [|b l'];
      [now apply Permutation_sym, Permutation_nil in Hp|].
    inversion Hs as [|? ? Hl Ha]; subst.
    inversion Hs' as [|? ? Hl' Hb]; subst.
    assert (Hab : a = b).
    { assert (Hin : In a (b :: l'))
        by (apply (Permutation_in _ Hp); now left).
      assert (Hin' : In b (a :: l))
        by (apply (Permutation_in _ (Permutation_sym Hp)); now left).
      destruct Hin as [->|Hin]; [reflexivity|].
      destruct Hin' as [->|Hin']; [reflexivity|].
      rewrite Forall_forall in Ha, Hb.
      apply le_antisym; [now apply Ha|now apply Hb]. }
    subst b. f_equal. apply IH; try assumption.
    now apply Permutation_cons_inv in Hp.
Qed.

Lemma sort_by_perm_eq (l l' : list A) :
  Permutation l l' -> sort_by le l = sort_by le l'.
Proof.
  intros Hp. apply sorted_perm_eq; try apply sort_by_sorted.
  now rewrite !sort_by_perm.
Qed.

End SortUnique.

(** ** The contingency table and the nulls *)

Section TableFacts.

Context {value : Type}.
Variable value_eq_dec : forall a b : value, {a = b} + {a <> b}.
Variable value_leb : value -> value -> bool.

Local Abbreviation categories := (categories value_eq_dec value_leb).

Lemma dropna_perm (s s' : series value) :
  Permutation s s' -> Permutation (dropna s) (dropna s').
Proof.
  induction 1 as [|c s s' _ IH|c c' s|s s' s'' _ IH1 _ IH2]; simpl.
  - constructor.
  - destruct c; [now constructor|exact IH].
  - destruct c, c'; try reflexivity. apply perm_swap.
  - now transitivity (dropna s').
Qed.

Lemma count_perm (k : value) (l l' : list value) :
  Permutation l l' -> count value_eq_dec k l = count value_eq_dec k l'.
Proof.
  unfold count. induction 1 as [|x l l' _ IH|x y l|l l' l'' _ IH1 _ IH2];
    simpl; try congruence.
  - now destruct (value_eq_dec x k); rewrite IH.
  - now destruct (value_eq_dec x k), (value_eq_dec y k).
Qed.

Lemma isnull_sum_dropna (s : series value) :
  isnull_sum s + List.length (dropna s) = List.length s.
Proof.
  unfold isnull_sum. induction s as [|[v|] s IH]; simpl; lia.
Qed.

(** X9: the categorical comparator and the null report split the rows of a
    window between them: the row of the contingency table for a window and
    the nulls that [generate_null_counts] counts in the column add up to
    the number of rows of the window. *)
Theorem table_and_null_counts_split_rows (s1 s2 : series value) :
  exists row1 row2,
    obs value_eq_dec value_leb s1 s2 = [row1; row2]
    /\ list_sum row1 + isnull_sum s1 = List.length s1
    /\ list_sum row2 + isnull_sum s2 = List.length s2.
Proof.
  rewrite obs_rows. eexists. eexists. split; [reflexivity|].
  rewrite !sum_counts_covering; try apply categories_NoDup.
  - rewrite !(Nat.add_comm _ (isnull_sum _)). split; apply isnull_sum_dropna.
  - intros k Hk. apply categories_In. right. now apply (dropna_In value_leb).
  - intros k Hk. apply categories_In. left. now apply (dropna_In value_leb).
Qed.

(** X6: the table has no column exactly when neither window has a non-null
    observation of the feature; the class then hands the test a table of
    two empty rows. *)
Theorem table_is_empty_iff_all_null (s1 s2 : series value) :
  obs value_eq_dec value_leb s1 s2 = [[]; []]
  <-> dropna s1 = [] /\ dropna s2 = [].
Proof.
  rewrite obs_rows. split.
  - intros [= H _]. apply map_eq_nil in H.
    split.
    + destruct (dropna s1) as [|k l] eqn:E; [reflexivity|].
      assert (Hin : In k (categories s1 s2))
        by (apply categories_In; left; apply (proj1 (dropna_In value_leb k s1));
            rewrite E; now left).
      rewrite H in Hin. contradiction.
    + destruct (dropna s2) as [|k l] eqn:E; [reflexivity|].
      assert (Hin : In k (categories s1 s2))
        by (apply categories_In; right; apply (proj1 (dropna_In value_leb k s2));
            rewrite E; now left).
      rewrite H in Hin. contradiction.
  - intros [H1 H2].
    destruct (categories s1 s2) as [|k l] eqn:E; [reflexivity|].
    assert (Hin : In k (categories s1 s2)) by (rewrite E; now left).
    apply categories_In in Hin.
    rewrite <- !(dropna_In value_leb), H1, H2 in Hin.
    destruct Hin as [[]|[]].
Qed.

(** X11: line 332 of the notebook turns the cells equal to 0 into nulls.  The
    comparator then counts no observation of a category equal to 0 in that
    window and counts the other categories as before, and the null count of
    the column grows by the number of cells that were 0. *)
Theorem nulled_category_leaves_the_table (is_zero : value -> bool)
  (s : series value) :
  (forall k,
      count value_eq_dec k (dropna (map_none_if_zero is_zero s))
      = if is_zero k then 0 else count value_eq_dec k (dropna s))
  /\ isnull_sum (map_none_if_zero is_zero s)
     = isnull_sum s + List.length (filter is_zero (dropna s)).
Proof.
  split.
  - intros k. unfold count. induction s as [|[v|] s IH]; simpl.
    + now destruct (is_zero k).
    + destruct (is_zero v) eqn:Ev; simpl.
      * rewrite IH. destruct (value_eq_dec v k) as [->|Hne];
          [now rewrite Ev|reflexivity].
      * rewrite IH. destruct (value_eq_dec v k) as [->|Hne];
          [now rewrite Ev|reflexivity].
    + exact IH.
  - unfold isnull_sum. induction s as [|[v|] s IH]; simpl.
    + reflexivity.
    + destruct (is_zero v); simpl; lia.
    + simpl in IH. lia.
Qed.

Section TotalOrder.

Hypothesis leb_total : forall a b,
  value_leb a b = true \/ value_leb b a = true.
Hypothesis leb_trans : forall a b c,
  value_leb a b = true -> value_leb b c = true -> value_leb a c = true.
Hypothesis leb_antisym : forall a b,
  value_leb a b = true -> value_leb b a = true -> a = b.

(** Windows with the same non-null values have the same categories, in the
    same order. *)
Lemma categories_ext (s1 s2 s1' s2' : series value) :
  (forall k, In (Some k) s1 \/ In (Some k) s2
             <-> In (Some k) s1' \/ In (Some k) s2') ->
  categories s1 s2 = categories s1' s2'.
Proof.
  intros Hsame.
  apply (sorted_perm_eq value_leb leb_antisym).
  - rewrite categories_eq.
    apply (sort_by_sorted value_leb leb_total leb_trans).
  - rewrite categories_eq.
    apply (sort_by_sorted value_leb leb_total leb_trans).
  - apply NoDup_Permutation; try apply categories_NoDup.
    intros k. now rewrite !categories_In.
Qed.

(** X7: the table does not depend on the order of the rows of the windows. *)
Theorem table_ignores_row_order (s1 s2 s1' s2' : series value) :
  Permutation s1 s1' -> Permutation s2 s2' ->
  obs value_eq_dec value_leb s1 s2 = obs value_eq_dec value_leb s1' s2'.
Proof.
  intros H1 H2. rewrite !obs_rows.
  rewrite (categories_ext s1 s2 s1' s2').
  - f_equal; [|f_equal]; apply map_ext; intros k; apply count_perm;
      now apply dropna_perm.
  - intros k. split; intros [H|H].
    + left. exact (Permutation_in _ H1 H).
    + right. exact (Permutation_in _ H2 H).
    + left. exact (Permutation_in _ (Permutation_sym H1) H).
    + right. exact (Permutation_in _ (Permutation_sym H2) H).
Qed.

(** X8: exchanging the two windows exchanges the two rows of the table and
    leaves its columns in place. *)
Theorem table_of_swapped_windows (s1 s2 : series value) :
  obs value_eq_dec value_leb s2 s1 = rev (obs value_eq_dec value_leb s1 s2).
Proof.
  rewrite !obs_rows. rewrite (categories_ext s2 s1 s1 s2); [reflexivity|].
  intros k. tauto.
Qed.

End TotalOrder.

End TableFacts.

(** ** NaN *)

Lemma leb_nan_r (p : float) : (p <=? nan)%float = false.
Proof.
  rewrite FloatAxioms.leb_spec. unfold SFleb.
  now destruct (Prim2SF p).
Qed.

Lemma ltb_nan_r (p : float) : (p <? nan)%float = false.
Proof.
  rewrite FloatAxioms.ltb_spec. unfold SFltb.
  now destruct (Prim2SF p).
Qed.

Lemma leb_nan_l (t : float) : (nan <=? t)%float = false.
Proof. rewrite FloatAxioms.leb_spec. reflexivity. Qed.

Lemma ltb_nan_l (t : float) : (nan <? t)%float = false.
Proof. rewrite FloatAxioms.ltb_spec. reflexivity. Qed.

Lemma nan_div (x : float) : (nan / x)%float = nan.
Proof.
  apply Prim2SF_inj. rewrite FloatAxioms.div_spec. reflexivity.
Qed.

Lemma filter_none {A : Type} (f : A -> bool) (l : list A) :
  (forall x, f x = false) -> filter f l = [].
Proof.
  intros H. induction l as [|x l IH]; simpl; [reflexivity|].
  now rewrite H.
Qed.

(** ** The null report *)

(** X10: on a window without rows every null percentage is NaN: the division
    by the number of rows is numpy's and does not raise. *)
Theorem null_percent_of_empty_window {value : Type} (df : DataFrame value) :
  (forall c, In c df -> snd c = []) ->
  forall name pct, In (name, pct) (null_percent df) -> pct = nan.
Proof.
  intros Hrows name pct Hin. unfold null_percent in Hin.
  apply in_map_iff in Hin. destruct Hin as [c [[= _ <-] Hc]].
  assert (Hn : nrows df = 0).
  { destruct df as [|c0 df]; [reflexivity|]. simpl.
    now rewrite (Hrows c0 (or_introl eq_refl)). }
  rewrite Hn, (Hrows c Hc). reflexivity.
Qed.

(** ** The constructor *)

(** X1: the constructor accepts two windows exactly when their column
    indexes are equal, names and order; it then keeps its five arguments as
    they are, and looks at neither the feature lists nor alpha. *)
Theorem init_accepts_exactly_equal_columns {value : Type}
  (pdf1 pdf2 : DataFrame value) (cat_cols num_cols : list string)
  (alpha : float) (m : Monitor.t value) :
  Monitor.init pdf1 pdf2 cat_cols num_cols alpha = Ok m
  <-> columns pdf1 = columns pdf2
      /\ m = {| Monitor.pdf1 := pdf1; Monitor.pdf2 := pdf2;
                Monitor.alpha := alpha;
                Monitor.categorical_columns := cat_cols;
                Monitor.continuous_columns := num_cols |}.
Proof.
  unfold Monitor.init, index_eq.
  destruct (Nat.eqb_spec (List.length (columns pdf1))
                         (List.length (columns pdf2))) as [Hlen|Hlen].
  - destruct (all _) eqn:Hall.
    + apply (all_index_eq _ _ Hlen) in Hall. split.
      * intros [= <-]. now split.
      * intros [_ ->]. reflexivity.
    + split; [discriminate|]. intros [Hcols _].
      apply (all_index_eq _ _ Hlen) in Hcols. congruence.
  - split; [discriminate|]. intros [Hcols _]. now rewrite Hcols in Hlen.
Qed.

(** ** Runs that may fail *)

Section RunAny.

Context {value : Type}.
Variable value_eq_dec : forall a b : value, {a = b} + {a <> b}.
Variable value_leb : value -> value -> bool.
Variable ks_2samp : series value -> series value -> result (float * float).
Variable chi2_contingency : list (list nat) -> result float.

Local Abbreviation numeric_test := (Monitor.numeric_test ks_2samp).
Local Abbreviation numeric_step := (Monitor.numeric_step ks_2samp).
Local Abbreviation handle_numeric := (Monitor.handle_numeric ks_2samp).
Local Abbreviation numeric_verdict := (Monitor.numeric_verdict ks_2samp).
Local Abbreviation categorical_test :=
  (Monitor.categorical_test value_eq_dec value_leb chi2_contingency).
Local Abbreviation categorical_step :=
  (Monitor.categorical_step value_eq_dec value_leb chi2_contingency).
Local Abbreviation handle_categorical :=
  (Monitor.handle_categorical value_eq_dec value_leb chi2_contingency).
Local Abbreviation categorical_verdict :=
  (Monitor.categorical_verdict value_eq_dec value_leb chi2_contingency).
Local Abbreviation run :=
  (Monitor.run value_eq_dec value_leb ks_2samp chi2_contingency).
Local Abbreviation numeric_cell := (Notebook.numeric_cell ks_2samp).
Local Abbreviation categorical_cell :=
  (Notebook.categorical_cell value_eq_dec value_leb chi2_contingency).

Implicit Types (self : Monitor.t value) (out : stdout).

(** Whatever the tests do, a handler over a family that is not empty gets
    through the features before the first failing test and announces the
    drift among them. *)
Lemma handle_numeric_any self out :
  Monitor.continuous_columns self <> [] ->
  handle_numeric self out
  = (outcome (numeric_test self) (Monitor.continuous_columns self),
     out ++ map Monitor.drift_message
                (filter (numeric_verdict self)
                        (tested (numeric_test self)
                                (Monitor.continuous_columns self)))).
Proof.
  intros Hne. unfold Monitor.handle_numeric.
  rewrite (bind_lift_ok _ _ _ _ (truediv_nonempty _ _ Hne)).
  apply for_each_tested. intros f o. apply numeric_step_spec.
Qed.

Lemma handle_categorical_any self out :
  Monitor.categorical_columns self <> [] ->
  handle_categorical self out
  = (outcome (categorical_test self) (Monitor.categorical_columns self),
     out ++ map Monitor.drift_message
                (filter (categorical_verdict self)
                        (tested (categorical_test self)
                                (Monitor.categorical_columns self)))).
Proof.
  intros Hne. unfold Monitor.handle_categorical.
  rewrite (bind_lift_ok _ _ _ _ (truediv_nonempty _ _ Hne)).
  apply for_each_tested. intros f o. apply categorical_step_spec.
Qed.

(** What a handler prints, in every case. *)
Lemma handle_numeric_prints self out :
  exists fs,
    snd (handle_numeric self out) = out ++ map Monitor.drift_message fs
    /\ forall f, In f fs ->
                 In f (Monitor.continuous_columns self)
                 /\ numeric_verdict self f = true.
Proof.
  destruct (Monitor.continuous_columns self) as [|c cs] eqn:E.
  - exists []. rewrite (handle_numeric_empty _ _ _ E). simpl.
    split; [now rewrite app_nil_r|contradiction].
  - assert (Hne : Monitor.continuous_columns self <> [])
      by (rewrite E; discriminate).
    rewrite (handle_numeric_any self out Hne). rewrite E. eexists.
    split; [reflexivity|]. intros f Hf. apply filter_In in Hf.
    destruct Hf as [Hf Hv]. split; [|exact Hv].
    now apply tested_In in Hf.
Qed.

Lemma handle_categorical_prints self out :
  exists fs,
    snd (handle_categorical self out) = out ++ map Monitor.drift_message fs
    /\ forall f, In f fs ->
                 In f (Monitor.categorical_columns self)
                 /\ categorical_verdict self f = true.
Proof.
  destruct (Monitor.categorical_columns self) as [|c cs] eqn:E.
  - exists []. rewrite (handle_categorical_empty _ _ _ _ _ E). simpl.
    split; [now rewrite app_nil_r|contradiction].
  - assert (Hne : Monitor.categorical_columns self <> [])
      by (rewrite E; discriminate).
    rewrite (handle_categorical_any self out Hne). rewrite E. eexists.
    split; [reflexivity|]. intros f Hf. apply filter_In in Hf.
    destruct Hf as [Hf Hv]. split; [|exact Hv].
    now apply tested_In in Hf.
Qed.

(** What [run] prints, in every case. *)
Lemma run_prints self out :
  exists fs,
    snd (run self out) = out ++ map Monitor.drift_message fs
    /\ forall f, In f fs ->
                 (In f (Monitor.continuous_columns self)
                  /\ numeric_verdict self f = true)
                 \/ (In f (Monitor.categorical_columns self)
                     /\ categorical_verdict self f = true).
Proof.
  rewrite run_unfold.
  destruct (handle_numeric_prints self out) as (fs1 & Hout1 & Hfs1).
  destruct (handle_numeric self out) as [[[]|e] out1]; simpl in Hout1.
  - destruct (handle_categorical_prints self out1) as (fs2 & Hout2 & Hfs2).
    exists (fs1 ++ fs2). split.
    + destruct (handle_categorical self out1) as [[[]|e] out2];
        simpl in *; subst; now rewrite map_app, app_assoc.
    + intros f Hf. apply in_app_or in Hf.
      destruct Hf as [Hf|Hf]; [left; now apply Hfs1|right; now apply Hfs2].
  - exists fs1. split; [exact Hout1|]. intros f Hf. left. now apply Hfs1.
Qed.

(** X2: [run] makes no false announcement.  In every run, also one that
    ends with an exception, what it prints is the earlier output followed
    by drift messages only, each for a feature of one of the two lists
    whose verdict is drift. *)
Theorem run_announces_only_drift self out :
  exists fs,
    snd (run self out) = out ++ map Monitor.drift_message fs
    /\ forall f, In f fs ->
                 (In f (Monitor.continuous_columns self)
                  /\ numeric_verdict self f = true)
                 \/ (In f (Monitor.categorical_columns self)
                     /\ categorical_verdict self f = true).
Proof. apply run_prints. Qed.

(** X4: a test that answers a NaN p-value never makes its feature drift,
    whatever the threshold: the loop goes on without a word. *)
Theorem nan_pvalue_is_never_drift self (ca : float) (f : string) out :
  (numeric_test self f = Ok nan -> numeric_step self ca f out = (Ok tt, out))
  /\ (categorical_test self f = Ok nan ->
      categorical_step self ca f out = (Ok tt, out)).
Proof.
  split; intros H.
  - now rewrite numeric_step_spec, H, leb_nan_l.
  - now rewrite categorical_step_spec, H, ltb_nan_l.
Qed.

(** X5: with a NaN alpha no feature is ever announced: both thresholds are
    NaN and no p-value compares with NaN. *)
Theorem nan_alpha_announces_nothing self out :
  Monitor.alpha self = nan -> snd (run self out) = out.
Proof.
  intros Halpha.
  destruct (run_prints self out) as (fs & Hout & Hfs).
  rewrite Hout. destruct fs as [|f fs]; [apply app_nil_r|].
  exfalso. destruct (Hfs f (or_introl eq_refl)) as [[_ Hv]|[_ Hv]].
  - unfold Monitor.numeric_verdict, is_drift in Hv.
    rewrite Halpha, nan_div in Hv.
    destruct (numeric_test self f); [now rewrite leb_nan_r in Hv|discriminate].
  - unfold Monitor.categorical_verdict, is_drift in Hv.
    rewrite Halpha, nan_div in Hv.
    destruct (categorical_test self f);
      [now rewrite ltb_nan_r in Hv|discriminate].
Qed.






(** The cells test as the class does. *)
Lemma numeric_cell_step_spec self (ca : float) (f : string) out :
  Notebook.numeric_step ks_2samp (Monitor.pdf1 self) (Monitor.pdf2 self) ca f
    out
  = match numeric_test self f with
    | Ok p =>
        (Ok tt, if (p <=? ca)%float
                then out ++ [Notebook.numeric_message f] else out)
    | Raise e => (Raise e, out)
    end.
Proof.
  unfold Notebook.numeric_step, Monitor.numeric_test, bind, lift.
  destruct (getitem (Monitor.pdf1 self) f) as [x|e]; [|reflexivity].
  destruct (getitem (Monitor.pdf2 self) f) as [y|e]; [|reflexivity].
  destruct (ks_2samp x y) as [[ks_stat ks_pval]|e]; [|reflexivity].
  cbn [snd]. destruct (ks_pval <=? ca)%float; reflexivity.
Qed.

Lemma categorical_cell_step_spec self (ca : float) (f : string) out :
  Notebook.categorical_step value_eq_dec value_leb chi2_contingency
    (Monitor.pdf1 self) (Monitor.pdf2 self) ca f out
  = match categorical_test self f with
    | Ok p =>
        (Ok tt, out ++ [if (p <? ca)%float
                        then Notebook.changed_message f
                        else Notebook.unchanged_message f])
    | Raise e => (Raise e, out)
    end.
Proof.
  unfold Notebook.categorical_step, Monitor.categorical_test, bind, lift.
  destruct (getitem (Monitor.pdf1 self) f) as [s1|e]; [|reflexivity].
  destruct (getitem (Monitor.pdf2 self) f) as [s2|e]; [|reflexivity].
  destruct (chi2_contingency _) as [p|e]; [|reflexivity].
  destruct (p <? ca)%float; reflexivity.
Qed.

(** X12: the numeric handler of a monitor with the alpha of the notebook does
    what the numeric cell does on the same windows and list: both end the
    same way, and the features the handler announces are, in order, the
    features the cell reports. *)
Theorem numeric_handler_agrees_with_cell self out out' :
  Monitor.alpha self = Notebook.alpha ->
  exists r fs,
    handle_numeric self out = (r, out ++ map Monitor.drift_message fs)
    /\ numeric_cell (Monitor.pdf1 self) (Monitor.pdf2 self)
         (Monitor.continuous_columns self) out'
       = (r, out' ++ map Notebook.numeric_message fs).
Proof.
  intros Halpha.
  destruct (Monitor.continuous_columns self) as [|c cs] eqn:E.
  - exists (Raise (ZeroDivisionError "float division by zero")), [].
    rewrite (handle_numeric_empty _ _ _ E). simpl.
    rewrite !app_nil_r. split; reflexivity.
  - assert (Hne : Monitor.continuous_columns self <> [])
      by (rewrite E; discriminate).
    rewrite (handle_numeric_any self out Hne).
    unfold Notebook.numeric_cell.
    rewrite <- E, <- Halpha.
    rewrite (bind_lift_ok _ _ _ _ (truediv_nonempty _ _ Hne)).
    rewrite (for_each_tested (numeric_test self) _ _
               Notebook.numeric_message
               (fun f o => numeric_cell_step_spec self _ f o)).
    eexists. eexists. split; reflexivity.
Qed.

(** X13: the categorical cell prints one line for each feature it gets
    through, saying whether it changed; the features it reports as changed
    are the ones the categorical handler of a monitor with the alpha of the
    notebook announces, and both end the same way.  When the cell ends
    without an exception the features it got through are the whole list. *)
Theorem categorical_handler_agrees_with_cell self out out' :
  Monitor.alpha self = Notebook.alpha ->
  exists r fs post,
    Monitor.categorical_columns self = fs ++ post
    /\ (r = Ok tt -> post = [])
    /\ categorical_cell (Monitor.pdf1 self) (Monitor.pdf2 self)
         (Monitor.categorical_columns self) out'
       = (r, out' ++ map (fun f => if categorical_verdict self f
                                   then Notebook.changed_message f
                                   else Notebook.unchanged_message f) fs)
    /\ handle_categorical self out
       = (r, out ++ map Monitor.drift_message
                        (filter (categorical_verdict self) fs)).
Proof.
  intros Halpha.
  destruct (Monitor.categorical_columns self) as [|c cs] eqn:E.
  - exists (Raise (ZeroDivisionError "float division by zero")), [], [].
    rewrite (handle_categorical_empty _ _ _ _ _ E). simpl.
    rewrite !app_nil_r. repeat split; discriminate.
  - assert (Hne : Monitor.categorical_columns self <> [])
      by (rewrite E; discriminate).
    rewrite (handle_categorical_any self out Hne).
    unfold Notebook.categorical_cell.
    rewrite <- E, <- Halpha.
    rewrite (bind_lift_ok _ _ _ _ (truediv_nonempty _ _ Hne)).
    rewrite (for_each_tested_both (categorical_test self) _ _
               Notebook.changed_message Notebook.unchanged_message
               (fun f o => categorical_cell_step_spec self _ f o)).
    destruct (tested_prefix (categorical_test self)
                (Monitor.categorical_columns self)) as [post Hpost].
    exists (outcome (categorical_test self) (Monitor.categorical_columns self)),
      (tested (categorical_test self) (Monitor.categorical_columns self)),
      post.
    split; [exact Hpost|]. split; [|split; reflexivity].
    intros Hok. apply outcome_ok_tested in Hok.
    rewrite Hok in Hpost.
    apply (app_inv_head (Monitor.categorical_columns self)).
    now rewrite app_nil_r.
Qed.

End RunAny.

(** ** The helper [calculate_ks] *)

(** X14: [calculate_ks] decides on the statistic of the test, the first
    component of its answer, and flags drift when the rounded statistic is
    below 0.05.  A statistic of 0, that of two samples with the same
    empirical distribution, is reported as drift, whatever the p-value. *)
Theorem calculate_ks_flags_a_zero_statistic {value : Type}
  (ks_2samp_auto : series value -> series value -> result (float * float))
  (rint : float -> float) (distibution_1 distibution_2 : series value)
  (p : float) :
  ks_2samp_auto distibution_1 distibution_2 = Ok (0%float, p) ->
  rint 0%float = 0%float ->
  Notebook.calculate_ks ks_2samp_auto rint distibution_1 distibution_2
  = Ok (0%float, "True").
Proof.
  intros Hks Hrint. unfold Notebook.calculate_ks, Notebook.np_round3.
  rewrite Hks. cbn [fst].
  replace (0 * 1000)%float with 0%float by reflexivity.
  rewrite Hrint. reflexivity.
Qed.

(** ** The further properties on the example inputs *)

Ltac leb_order :=
  intros; repeat match goal with
                 | H : Z.leb _ _ = true |- _ => apply Z.leb_le in H
                 end;
  try (apply Z.leb_le); rewrite ?Z.leb_le; lia.

(** Two rows exchanged in the first window. *)
Lemma table_ignores_row_order_witness :
  obs Z.eq_dec Z.leb [Some 1%Z; Some 2%Z; None] [Some 2%Z]
  = obs Z.eq_dec Z.leb [Some 2%Z; Some 1%Z; None] [Some 2%Z].
Proof.
  apply (table_ignores_row_order Z.eq_dec Z.leb).
  - leb_order.
  - leb_order.
  - leb_order.
  - apply perm_swap.
  - apply Permutation_refl.
Defined.

(** The windows of the listings, exchanged. *)
Lemma table_of_swapped_windows_witness :
  obs Z.eq_dec Z.leb (repeat (Some 4%Z) 100) (repeat (Some 3%Z) 100)
  = rev (obs Z.eq_dec Z.leb (repeat (Some 3%Z) 100) (repeat (Some 4%Z) 100)).
Proof.
  apply (table_of_swapped_windows Z.eq_dec Z.leb); leb_order.
Defined.

(** A feature that is null in the one row of a window and has no row in the
    other. *)
Lemma table_is_empty_iff_all_null_witness :
  obs Z.eq_dec Z.leb [None] [] = [[]; []].
Proof.
  apply (proj2 (table_is_empty_iff_all_null Z.eq_dec Z.leb [None] [])).
  split; reflexivity.
Defined.

(** The window with two columns and no row. *)
Lemma null_percent_of_empty_window_witness :
  Forall (fun column => snd column = nan) (null_percent no_listing).
Proof.
  apply Forall_forall. intros [name pct] Hin.
  apply (null_percent_of_empty_window no_listing) with (name := name);
    [|exact Hin].
  intros c [<-|[<-|[]]]; reflexivity.
Defined.

(** The two windows of the listings have the same columns. *)
Lemma init_accepts_exactly_equal_columns_witness :
  Monitor.init baseline comparison ["room_type"; "property_type"] ["price"]
    Monitor.default_alpha
  = Ok listings.
Proof.
  apply (proj2 (init_accepts_exactly_equal_columns baseline comparison
                  ["room_type"; "property_type"] ["price"]
                  Monitor.default_alpha listings)).
  split; reflexivity.
Defined.

(** The run that the room type ends with an exception. *)
Lemma run_announces_only_drift_witness :
  exists fs,
    snd (Monitor.run Z.eq_dec Z.leb ks_example chi2_example listings_no_rooms
           [])
    = [] ++ map Monitor.drift_message fs
    /\ forall f, In f fs ->
                 (In f (Monitor.continuous_columns listings_no_rooms)
                  /\ Monitor.numeric_verdict ks_example listings_no_rooms f
                     = true)
                 \/ (In f (Monitor.categorical_columns listings_no_rooms)
                     /\ Monitor.categorical_verdict Z.eq_dec Z.leb
                          chi2_example listings_no_rooms f
                        = true).
Proof.
  exact (run_announces_only_drift Z.eq_dec Z.leb ks_example chi2_example
           listings_no_rooms []).
Defined.

(** The listings with tests that answer NaN. *)
Lemma nan_pvalue_is_never_drift_witness :
  Monitor.numeric_step ks_nan listings Monitor.default_alpha "price" []
  = (Ok tt, [])
  /\ Monitor.categorical_step Z.eq_dec Z.leb chi2_nan listings
       Monitor.default_alpha "room_type" []
     = (Ok tt, []).
Proof.
  destruct (nan_pvalue_is_never_drift Z.eq_dec Z.leb ks_nan chi2_nan listings
              Monitor.default_alpha "price" []) as [Hnum _].
  destruct (nan_pvalue_is_never_drift Z.eq_dec Z.leb ks_nan chi2_nan listings
              Monitor.default_alpha "room_type" []) as [_ Hcat].
  split; [apply Hnum|apply Hcat]; reflexivity.
Defined.

(** The listings with a NaN alpha: the price and the property type drift
    under every other alpha of the examples, and nothing is printed. *)
Lemma nan_alpha_announces_nothing_witness :
  snd (Monitor.run Z.eq_dec Z.leb ks_example chi2_example listings_alpha_nan
         ["earlier output"])
  = ["earlier output"].
Proof.
  apply (nan_alpha_announces_nothing Z.eq_dec Z.leb ks_example chi2_example
           listings_alpha_nan ["earlier output"]).
  reflexivity.
Defined.

(** The listings: the handler announces the price, the cell reports it. *)
Lemma numeric_handler_agrees_with_cell_witness :
  exists r fs,
    Monitor.handle_numeric ks_example listings []
    = (r, [] ++ map Monitor.drift_message fs)
    /\ Notebook.numeric_cell ks_example (Monitor.pdf1 listings)
         (Monitor.pdf2 listings) (Monitor.continuous_columns listings) []
       = (r, [] ++ map Notebook.numeric_message fs).
Proof.
  apply (numeric_handler_agrees_with_cell ks_example listings [] []).
  reflexivity.
Defined.

(** The listings: the cell reports the room type and the property type,
    the handler announces the property type. *)
Lemma categorical_handler_agrees_with_cell_witness :
  exists r fs post,
    Monitor.categorical_columns listings = fs ++ post
    /\ (r = Ok tt -> post = [])
    /\ Notebook.categorical_cell Z.eq_dec Z.leb chi2_example
         (Monitor.pdf1 listings) (Monitor.pdf2 listings)
         (Monitor.categorical_columns listings) []
       = (r, [] ++ map (fun f =>
                          if Monitor.categorical_verdict Z.eq_dec Z.leb
                               chi2_example listings f
                          then Notebook.changed_message f
                          else Notebook.unchanged_message f) fs)
    /\ Monitor.handle_categorical Z.eq_dec Z.leb chi2_example listings []
       = (r, [] ++ map Monitor.drift_message
                       (filter (Monitor.categorical_verdict Z.eq_dec Z.leb
                                  chi2_example listings) fs)).
Proof.
  apply (categorical_handler_agrees_with_cell Z.eq_dec Z.leb chi2_example
           listings [] []).
  reflexivity.
Defined.

(** The prices of the first window of the listings, against themselves. *)
Lemma calculate_ks_flags_a_zero_statistic_witness :
  Notebook.calculate_ks ks_example rint_example (repeat (Some 100%Z) 100)
    (repeat (Some 100%Z) 100)
  = Ok (0%float, "True").
Proof.
  apply (calculate_ks_flags_a_zero_statistic ks_example rint_example
           (repeat (Some 100%Z) 100) (repeat (Some 100%Z) 100) 1%float);
    reflexivity.
Defined.

